(** * Trading Journal web application (app.py): a shallow embedding

    The journal server is a set of Flask request handlers over a per-user
    JSON file (cloud mode) or one Word document (local mode).  The handlers
    are embedded as state-passing functions over a [world] that holds the
    process environment, the file system and the outcomes of the external
    services; Python exceptions are explicit results, and the values that
    travel through requests and journal files are JSON values with Python's
    dynamic behaviour ([.get] on something that is not a dict raises).

    Strings are Rocq strings: an element of a [string] stands for a character
    of the Python [str]; the literals of the source are kept as they are in
    the source file. *)

From Stdlib Require Import ZArith QArith Ascii Lia.
From stdpp Require Import base option list gmap strings.

Set Warnings "-register-all".
Local Open Scope Z_scope.

(** ** Python dicts with string keys: insertion ordered, looked up by key *)

Section Assoc.
Context {V : Type}.

Fixpoint assoc_lookup (d : list (string * V)) (k : string) : option V :=
  match d with
  | [] => None
  | (k', v) :: d' => if String.eqb k' k then Some v else assoc_lookup d' k
  end.

(** [d[k] = v]: replaces the value of an existing key where it stands,
    appends a new key at the end. *)
Fixpoint assoc_set (d : list (string * V)) (k : string) (v : V)
  : list (string * V) :=
  match d with
  | [] => [(k, v)]
  | (k', v') :: d' =>
      if String.eqb k' k then (k', v) :: d' else (k', v') :: assoc_set d' k v
  end.
End Assoc.

(** ** JSON values: what [json.load] and [request.json] produce *)

Inductive json : Type :=
  | JNull
  | JBool (b : bool)
  | JInt (z : Z)
  | JFloat (q : Q)
  | JStr (s : string)
  | JList (l : list json)
  | JObj (d : list (string * json)).

(** A dict of JSON values. *)
Abbreviation dict := (list (string * json)).

(** Python truth value of a JSON value ([if x:], [not x]). *)
Definition truthy (j : json) : bool :=
  match j with
  | JNull => false
  | JBool b => b
  | JInt z => negb (z =? 0)
  | JFloat q => negb (Qeq_bool q 0)
  | JStr s => negb (String.eqb s "")
  | JList l => match l with [] => false | _ => true end
  | JObj d => match d with [] => false | _ => true end
  end.

Abbreviation dict_lookup := (@assoc_lookup json).

(** [d.get(k, dflt)] *)
Definition dict_get (d : dict) (k : string) (dflt : json) : json :=
  default dflt (dict_lookup d k).

Abbreviation dict_set := (@assoc_set json).

Definition dict_keys (d : dict) : list string := d.*1.

(** ** Exceptions *)

Inductive exn_class :=
  | PermissionError | AttributeError | TypeError | KeyError | IndexError
  | ZeroDivisionError | HTTPException | OtherException.

Record exn := Exn { exn_cls : exn_class; exn_msg : string }.

(** [str(e)] *)
Definition str_exn (e : exn) : string := exn_msg e.

Inductive outcome (A : Type) :=
  | Ret (a : A)
  | Raise (e : exn).
Arguments Ret {A} a.
Arguments Raise {A} e.

Definition type_name (j : json) : string :=
  match j with
  | JNull => "NoneType" | JBool _ => "bool" | JInt _ => "int"
  | JFloat _ => "float" | JStr _ => "str" | JList _ => "list"
  | JObj _ => "dict"
  end.

Definition no_attribute (j : json) (attr : string) : exn :=
  Exn AttributeError
      ("'" +:+ type_name j +:+ "' object has no attribute '" +:+ attr +:+ "'").

(** [x.get(k, dflt)] on an arbitrary value: only a dict has [get]. *)
Definition py_get (x : json) (k : string) (dflt : json) : outcome json :=
  match x with
  | JObj d => Ret (dict_get d k dflt)
  | _ => Raise (no_attribute x "get")
  end.

(** [x[k]] with a string key. *)
Definition py_getitem (x : json) (k : string) : outcome json :=
  match x with
  | JObj d =>
      match dict_lookup d k with
      | Some v => Ret v
      | None => Raise (Exn KeyError ("'" +:+ k +:+ "'"))
      end
  | JList _ | JStr _ =>
      Raise (Exn TypeError (type_name x +:+ " indices must be integers"))
  | _ => Raise (Exn TypeError
                  ("'" +:+ type_name x +:+ "' object is not subscriptable"))
  end.

(** ** Python string methods used by the handlers *)

Module PyStr.

Definition nl : string := String "010" "".

Definition is_space (c : ascii) : bool :=
  let n := nat_of_ascii c in
  ((9 <=? n) && (n <=? 13) || (28 <=? n) && (n <=? 32))%nat.

Definition isdigit (c : ascii) : bool :=
  let n := nat_of_ascii c in ((48 <=? n) && (n <=? 57))%nat.
Definition isupper (c : ascii) : bool :=
  let n := nat_of_ascii c in ((65 <=? n) && (n <=? 90))%nat.
Definition islower (c : ascii) : bool :=
  let n := nat_of_ascii c in ((97 <=? n) && (n <=? 122))%nat.

(** [c.isalnum()], on the ASCII range. *)
Definition isalnum (c : ascii) : bool := isdigit c || isupper c || islower c.

Definition lower_char (c : ascii) : ascii :=
  if isupper c then ascii_of_nat (nat_of_ascii c + 32) else c.

(** [s.lower()] *)
Fixpoint lower (s : string) : string :=
  match s with
  | EmptyString => EmptyString
  | String c s' => String (lower_char c) (lower s')
  end.

Fixpoint filter (p : ascii -> bool) (s : string) : string :=
  match s with
  | EmptyString => EmptyString
  | String c s' => if p c then String c (filter p s') else filter p s'
  end.

(** [c in chars] for a character [c] *)
Fixpoint char_in (c : ascii) (chars : string) : bool :=
  match chars with
  | EmptyString => false
  | String c' r => Ascii.eqb c c' || char_in c r
  end.

(** [s.startswith(p)] *)
Definition startswith (s p : string) : bool := String.prefix p s.

Fixpoint drop (n : nat) (s : string) : string :=
  match n, s with
  | O, _ => s
  | S n', String _ s' => drop n' s'
  | S _, EmptyString => EmptyString
  end.

(** A string holds text as the source file holds its literals: in UTF-8.
    A character is a leading element followed by its continuation elements
    (those from 128 to 191). *)
Definition is_continuation (c : ascii) : bool :=
  let n := nat_of_ascii c in ((128 <=? n) && (n <=? 191))%nat.

(** [len(s)]: the number of characters. *)
Fixpoint len (s : string) : nat :=
  match s with
  | EmptyString => O
  | String c s' => if is_continuation c then len s' else S (len s')
  end.

(** [s[:n]]: the first [n] characters. *)
Fixpoint take (n : nat) (s : string) : string :=
  match s with
  | EmptyString => EmptyString
  | String c s' =>
      if is_continuation c then String c (take n s')
      else match n with
           | O => EmptyString
           | S n' => String c (take n' s')
           end
  end.

(** The characters of [s], each with its continuation elements. *)
Fixpoint chars (s : string) : list string :=
  match s with
  | EmptyString => []
  | String c s' =>
      match chars s' with
      | String c' ch :: rest =>
          if is_continuation c' then String c (String c' ch) :: rest
          else String c EmptyString :: String c' ch :: rest
      | rest => String c EmptyString :: rest
      end
  end.

(** [sub in s] *)
Fixpoint contains (sub s : string) : bool :=
  String.prefix sub s ||
  match s with
  | EmptyString => false
  | String _ s' => contains sub s'
  end.

Fixpoint lstrip (s : string) : string :=
  match s with
  | String c s' => if is_space c then lstrip s' else s
  | EmptyString => EmptyString
  end.

Fixpoint rstrip (s : string) : string :=
  match s with
  | EmptyString => EmptyString
  | String c s' =>
      match rstrip s' with
      | EmptyString => if is_space c then EmptyString else String c EmptyString
      | r => String c r
      end
  end.

(** [s.strip()] *)
Definition strip (s : string) : string := rstrip (lstrip s).

(** [sep.join(parts)] *)
Fixpoint join (sep : string) (parts : list string) : string :=
  match parts with
  | [] => EmptyString
  | [p] => p
  | p :: rest => p +:+ sep +:+ join sep rest
  end.

(** [s * n] *)
Fixpoint repeat (s : string) (n : nat) : string :=
  match n with
  | O => EmptyString
  | S n' => s +:+ repeat s n'
  end.

(** [s.split(sep)] for a one-character separator. *)
Fixpoint split_char (sep : ascii) (s : string) : list string :=
  match s with
  | EmptyString => [EmptyString]
  | String c s' =>
      if Ascii.eqb c sep then EmptyString :: split_char sep s'
      else match split_char sep s' with
           | [] => [String c EmptyString]
           | w :: ws => String c w :: ws
           end
  end.

(** [s.split(sep, 1)]: the text before the first [sep] and the text after
    it, or [s] alone when [sep] does not occur. *)
Fixpoint split_once (sep s : string) : list string :=
  if String.prefix sep s then [EmptyString; drop (String.length sep) s]
  else match s with
       | EmptyString => [EmptyString]
       | String c s' =>
           match split_once sep s' with
           | [w] => [String c w]
           | w :: ws => String c w :: ws
           | [] => [String c EmptyString]
           end
       end.

Fixpoint replace_fuel (fuel : nat) (old new s : string) : string :=
  match fuel with
  | O => s
  | S fuel' =>
      match s with
      | EmptyString => EmptyString
      | String c s' =>
          if String.prefix old s
          then new +:+ replace_fuel fuel' old new (drop (String.length old) s)
          else String c (replace_fuel fuel' old new s')
      end
  end.

(** [s.replace(old, new)] for a non-empty [old]. *)
Definition replace (old new s : string) : string :=
  replace_fuel (S (String.length s)) old new s.

End PyStr.


(** ** Comparison of numbers

    The floats of the market snapshot are read as the rationals they denote. *)

Definition Qltb (a b : Q) : bool := negb (Qle_bool b a).
Definition Qgtb (a b : Q) : bool := Qltb b a.

(** ** The outside world *)

(** A paragraph of the Word document, as python-docx exposes it. *)
Inductive para :=
  | Heading (text : string)
  | Text (text : string)
  | PageBreak
  | Picture (image : string).

Definition para_text (p : para) : string :=
  match p with
  | Heading t | Text t => t
  | PageBreak | Picture _ => ""
  end.

Abbreviation document := (list para).

Inductive file :=
  | JsonFile (j : json)       (* text that [json.load] reads as [j] *)
  | DocxFile (doc : document) (* a Word document *)
  | OtherFile.                (* anything else *)

(** One call of [client.messages.create]. *)
Record llm_request := {
  llm_api_key : json;
  llm_model : string;
  llm_max_tokens : Z;
  llm_system : string;
  llm_messages : list (string * string)   (* role, content *)
}.

(** What the Python runtime and the external services answer.  The clock is
    read through its renderings; the n-th reading of the clock and the n-th
    market fetch may each answer differently. *)
Record externals := {
  est_timestamp_at : nat -> string;  (* strftime('%A, %B %d, %Y %I:%M %p EST'), UTC-5 *)
  utc_isoformat_at : nat -> string;  (* datetime.now(timezone.utc).isoformat() *)
  local_minute_at : nat -> string;   (* datetime.now().strftime('%Y-%m-%d %H:%M') *)
  est_clock_at : nat -> string;      (* strftime('%I:%M:%S %p EST'), UTC-5 *)
  round2 : Q -> Q;                   (* round(x, 2) *)
  repr_float : Q -> string;          (* a float inside an f-string *)
  repr_json : json -> string;        (* a non-string value inside an f-string *)
  yf_history : nat -> string -> outcome (list Q);  (* hist['Close'] of a ticker *)
  yf_previous_close : nat -> outcome (option Q);   (* t.info.get("previousClose") of ^VIX *)
  llm_reply : nat -> llm_request -> outcome (list string); (* texts of response.content *)
  http_get : string -> outcome (Z * string);       (* status code, content *)
  picture_ok : string -> bool                      (* run.add_picture accepts the image *)
}.

(** Where a write fails: when the file is opened, which leaves the file as
    it was, or after [open(path, 'w')] has cut the file off, which leaves a
    partial text. *)
Inductive fault_stage := AtOpen | AfterOpen.

Record world := World {
  ext : externals;
  environ : gmap string string;       (* os.environ *)
  app_dir : string;                   (* os.path.dirname(__file__) *)
  home_dir : string;                  (* os.path.expanduser("~") *)
  docx_installed : bool;              (* Document is not None *)
  yf_installed : bool;                (* yf is not None *)
  session_username : option string;   (* session.get('username') *)
  fs : gmap string file;              (* the files that exist *)
  read_fault : gmap string exn;       (* paths that cannot be opened for reading *)
  write_fault : gmap string (fault_stage * exn); (* paths whose writing fails *)
  clock_reads : nat;
  market_fetches : nat;
  llm_log : list llm_request          (* the calls made to the LLM, oldest first *)
}.

Definition set_fs (w : world) (f : gmap string file) : world :=
  World (ext w) (environ w) (app_dir w) (home_dir w) (docx_installed w)
        (yf_installed w) (session_username w) f (read_fault w) (write_fault w)
        (clock_reads w) (market_fetches w) (llm_log w).

Definition set_clock_reads (w : world) (n : nat) : world :=
  World (ext w) (environ w) (app_dir w) (home_dir w) (docx_installed w)
        (yf_installed w) (session_username w) (fs w) (read_fault w)
        (write_fault w) n (market_fetches w) (llm_log w).

Definition set_market_fetches (w : world) (n : nat) : world :=
  World (ext w) (environ w) (app_dir w) (home_dir w) (docx_installed w)
        (yf_installed w) (session_username w) (fs w) (read_fault w)
        (write_fault w) (clock_reads w) n (llm_log w).

Definition set_llm_log (w : world) (l : list llm_request) : world :=
  World (ext w) (environ w) (app_dir w) (home_dir w) (docx_installed w)
        (yf_installed w) (session_username w) (fs w) (read_fault w)
        (write_fault w) (clock_reads w) (market_fetches w) l.

(** ** Computations that read and change the world and may raise *)

Definition M (A : Type) : Type := world -> outcome A * world.

Definition ret {A} (a : A) : M A := fun w => (Ret a, w).
Definition raise {A} (e : exn) : M A := fun w => (Raise e, w).
Definition bind {A B} (c : M A) (k : A -> M B) : M B :=
  fun w => match c w with
           | (Ret a, w') => k a w'
           | (Raise e, w') => (Raise e, w')
           end.
(** [try: c except Exception as e: h e] *)
Definition try_except {A} (c : M A) (h : exn -> M A) : M A :=
  fun w => match c w with
           | (Ret a, w') => (Ret a, w')
           | (Raise e, w') => h e w'
           end.
Definition lift {A} (o : outcome A) : M A := fun w => (o, w).
Definition get_world : M world := fun w => (Ret w, w).

Notation "'let*' x ':=' c 'in' k" := (bind c (fun x => k))
  (at level 10, x pattern, c at level 100, k at level 200).

(** The clock: each reading is rendered by the externals and counted. *)
Definition read_clock (render : externals -> nat -> string) : M string :=
  fun w => (Ret (render (ext w) (clock_reads w)),
            set_clock_reads w (S (clock_reads w))).

(** [get_est_timestamp()] *)
Definition get_est_timestamp : M string := read_clock est_timestamp_at.

(** ** Files *)

(** [os.path.join(a, b)] on a POSIX system. *)
Definition os_path_join (a b : string) : string :=
  if PyStr.startswith b "/" then b
  else if String.eqb a "" then b
  else if String.eqb (PyStr.drop (String.length a - 1) a) "/" then a +:+ b
  else a +:+ "/" +:+ b.

(** [os.path.exists(path)] *)
Definition path_exists (w : world) (path : string) : bool :=
  bool_decide (is_Some (fs w !! path)).

(** [with open(path) as f: json.load(f)] *)
Definition read_json (w : world) (path : string) : outcome json :=
  match read_fault w !! path with
  | Some e => Raise e
  | None =>
      match fs w !! path with
      | Some (JsonFile j) => Ret j
      | Some _ => Raise (Exn OtherException "Expecting value: line 1 column 1 (char 0)")
      | None => Raise (Exn OtherException "No such file or directory")
      end
  end.

(** [with open(path, 'w') as f: json.dump(data, f)] *)
Definition write_json (path : string) (data : json) : M unit :=
  fun w => match write_fault w !! path with
           | Some (AtOpen, e) => (Raise e, w)
           | Some (AfterOpen, e) =>
               (Raise e, set_fs w (<[path := OtherFile]> (fs w)))
           | None => (Ret tt, set_fs w (<[path := JsonFile data]> (fs w)))
           end.

(** ** Configuration *)

Definition IS_CLOUD (w : world) : bool :=
  String.eqb (PyStr.lower (default "false" (environ w !! "IS_CLOUD"))) "true".

Definition JOURNAL_PATH (w : world) : string :=
  default "D:\OneDrive - Dick Koch LLC\Trading Journal.docx"
          (environ w !! "JOURNAL_PATH").

Definition CONFIG_PATH (w : world) : string :=
  os_path_join (home_dir w) ".trading_journal_web_config".

Definition env_mappings : list (string * string) :=
  [ ("ANTHROPIC_API_KEY", "api_key");
    ("CLOUDINARY_CLOUD_NAME", "cloudinary_cloud_name");
    ("CLOUDINARY_API_KEY", "cloudinary_api_key");
    ("CLOUDINARY_API_SECRET", "cloudinary_api_secret") ].

Definition empty_config : dict :=
  [ ("api_key", JStr ""); ("cloudinary_cloud_name", JStr "");
    ("cloudinary_api_key", JStr ""); ("cloudinary_api_secret", JStr "") ].

(** The loop over [env_mappings.items()]. *)
Definition apply_env (env : gmap string string) (config : dict) : dict :=
  fold_left
    (fun config '(env_var, config_key) =>
       match env !! env_var with
       | Some env_val =>
           if truthy (JStr env_val)
           then dict_set config config_key (JStr env_val)
           else config
       | None => config
       end)
    env_mappings config.

(** The loop over [data.items()]. *)
Definition apply_file (data : dict) (config : dict) : dict :=
  fold_left
    (fun config '(key, val) =>
       if negb (truthy (dict_get config key JNull))
       then dict_set config key val
       else config)
    data config.

(** [load_config()] *)
Definition load_config (w : world) : dict :=
  let config := apply_env (environ w) empty_config in
  if negb (IS_CLOUD w) && path_exists w (CONFIG_PATH w) then
    match read_json w (CONFIG_PATH w) with
    | Ret (JObj data) => apply_file data config
    | Ret _ => config      (* data.items() raises, except: pass *)
    | Raise _ => config    (* except: pass *)
    end
  else config.

(** [get_api_key()] *)
Definition get_api_key (w : world) : json :=
  dict_get (load_config w) "api_key" (JStr "").

(** ** Cloud journal storage (JSON file per user) *)

(** [get_current_user()] *)
Definition get_current_user (w : world) : string :=
  default "default" (session_username w).

(** [get_user_journal_path(username)] *)
Definition get_user_journal_path (w : world) (username : option string)
  : string :=
  let username := default (get_current_user w) username in
  let safe_username :=
    PyStr.lower
      (PyStr.filter (fun c => PyStr.isalnum c || PyStr.char_in c "-_") username) in
  let safe_username :=
    if negb (truthy (JStr safe_username)) then "default" else safe_username in
  os_path_join (app_dir w) ("journal_" +:+ safe_username +:+ ".json").

Definition empty_journal : json := JObj [("entries", JList [])].

(** [load_cloud_journal(username)] *)
Definition load_cloud_journal (w : world) (username : option string) : json :=
  let journal_path := get_user_journal_path w username in
  if path_exists w journal_path then
    match read_json w journal_path with
    | Ret j => j
    | Raise _ => empty_journal
    end
  else empty_journal.

(** [save_cloud_journal(data, username)] *)
Definition save_cloud_journal (data : json) (username : option string)
  : M bool :=
  let* w := get_world in
  let journal_path := get_user_journal_path w username in
  try_except
    (let* _ := write_json journal_path data in ret true)
    (fun e => ret false).

(** [journal["entries"].append(entry)]: the list is the journal's own, so the
    journal sees the new element. *)
Definition append_to_entries (journal : json) (entry : json) : outcome json :=
  match py_getitem journal "entries" with
  | Raise e => Raise e
  | Ret (JList l) =>
      match journal with
      | JObj d => Ret (JObj (dict_set d "entries" (JList (l ++ [entry]))))
      | _ => Ret journal
      end
  | Ret v => Raise (no_attribute v "append")
  end.

(** [add_cloud_entry(entry, username)] *)
Definition add_cloud_entry (entry : json) (username : option string)
  : M bool :=
  let* w := get_world in
  let journal := load_cloud_journal w username in
  let* journal := lift (append_to_entries journal entry) in
  save_cloud_journal journal username.

(** ** Market snapshot *)

Record quote := {
  q_name : string;
  q_price : Q;
  q_change : Q;
  q_direction : string;
  q_status : option string     (* only the VIX entry has a status *)
}.

Record sentiment := { label : string; color : string; icon : string }.

(** The dict that [get_market_data] returns: the entries keyed by symbol,
    and the keys 'sentiment' and 'timestamp'. *)
Record market_data := {
  md_quotes : list (string * quote);
  md_sentiment : sentiment;
  md_timestamp : string
}.

Definition symbols : list (string * string) :=
  [ ("^GSPC", "SPX"); ("^NDX", "NDX"); ("^RUT", "RUT"); ("^DJI", "DJI");
    ("GLD", "Gold"); ("BTC-USD", "Bitcoin"); ("TLT", "TLT") ].

(** ['up' if ch > 0 else 'down' if ch < 0 else 'flat'] *)
Definition direction (ch : Q) : string :=
  if Qgtb ch 0 then "up" else if Qltb ch 0 then "down" else "flat".

(** The body of the loop over [symbols]: [None] when the history is too
    short or the inner [try] catches an exception. *)
Definition symbol_quote (x : externals) (name : string)
    (hist : outcome (list Q)) : option quote :=
  match hist with
  | Raise _ => None
  | Ret closes =>
      if (2 <=? length closes)%nat then
        let curr := List.nth (length closes - 1) closes 0%Q in
        let prev_close := List.nth (length closes - 2) closes 0%Q in
        if Qeq_bool prev_close 0 then None   (* ZeroDivisionError *)
        else
          let ch := (((curr - prev_close) / prev_close) * 100)%Q in
          Some {| q_name := name; q_price := round2 x curr;
                  q_change := round2 x ch; q_direction := direction ch;
                  q_status := None |}
      else None
  end.

(** The VIX block. *)
Definition vix_quote (x : externals) (hist : outcome (list Q))
    (previous_close : outcome (option Q)) : option quote :=
  match hist with
  | Raise _ => None
  | Ret closes =>
      if (0 <? length closes)%nat then
        let curr := List.nth (length closes - 1) closes 0%Q in
        match previous_close with
        | Raise _ => None
        | Ret pc =>
            let prev := default curr pc in
            let ch := if negb (Qeq_bool prev 0)
                      then (((curr - prev) / prev) * 100)%Q else 0%Q in
            Some {| q_name := "VIX"; q_price := round2 x curr;
                    q_change := round2 x ch; q_direction := direction ch;
                    q_status := Some (if Qltb curr 15 then "LOW"
                                      else if Qgtb curr 25 then "ELEVATED"
                                      else "NORMAL") |}
        end
      else None
  end.

(** [data.get('^GSPC', {}).get('change', 0)] *)
Definition spy_change (data : list (string * quote)) : Q :=
  match assoc_lookup data "^GSPC" with
  | Some q => q_change q
  | None => 0%Q
  end.

(** [data.get('VIX', {}).get('price', 20)] *)
Definition vix_price (data : list (string * quote)) : Q :=
  match assoc_lookup data "VIX" with
  | Some q => q_price q
  | None => 20%Q
  end.

(** The two [if] chains that build [score]. *)
Definition sentiment_score (spy_ch vix : Q) : Z :=
  let score := 0 in
  let score :=
    if Qgtb spy_ch 1 then score + 2
    else if Qgtb spy_ch (3 # 10) then score + 1
    else if Qltb spy_ch (-1) then score - 2
    else if Qltb spy_ch (- (3 # 10)) then score - 1
    else score in
  let score :=
    if Qltb vix 15 then score + 1
    else if Qgtb vix 25 then score - 1
    else score in
  let score := if Qgtb vix 30 then score - 1 else score in
  score.

Definition sentiment_of_score (score : Z) : sentiment :=
  if score >=? 3 then
    {| label := "STRONGLY BULLISH"; color := "green"; icon := "üü¢" |}
  else if score >=? 1 then
    {| label := "BULLISH"; color := "lightgreen"; icon := "üü¢" |}
  else if score <=? -3 then
    {| label := "STRONGLY BEARISH"; color := "red"; icon := "üî¥" |}
  else if score <=? -1 then
    {| label := "BEARISH"; color := "salmon"; icon := "üî¥" |}
  else
    {| label := "NEUTRAL"; color := "yellow"; icon := "üü°" |}.

(** The sentiment that [get_market_data] stores under 'sentiment'. *)
Definition market_sentiment (data : list (string * quote)) : sentiment :=
  sentiment_of_score (sentiment_score (spy_change data) (vix_price data)).

(** The quotes gathered by the n-th fetch. *)
Definition fetch_quotes (x : externals) (n : nat) : list (string * quote) :=
  let data :=
    fold_left
      (fun data '(sym, name) =>
         match symbol_quote x name (yf_history x n sym) with
         | Some q => assoc_set data sym q
         | None => data
         end)
      symbols [] in
  match vix_quote x (yf_history x n "^VIX") (yf_previous_close x n) with
  | Some q => assoc_set data "VIX" q
  | None => data
  end.

(** [get_market_data()]: [None] when yfinance is missing.  Every call into
    yfinance sits in its own [try], so the outer handler never fires. *)
Definition get_market_data : M (option market_data) :=
  let* w := get_world in
  if negb (yf_installed w) then ret None
  else
    let data := fetch_quotes (ext w) (market_fetches w) in
    let* _ := (fun w => (Ret tt, set_market_fetches w (S (market_fetches w)))) in
    let* timestamp := read_clock est_clock_at in
    ret (Some {| md_quotes := data; md_sentiment := market_sentiment data;
                 md_timestamp := timestamp |}).

(** One line of the prompt block for the entry [d] of symbol [sym]. *)
Definition quote_line (x : externals) (sym : string) (d : quote) : string :=
  let sign := if Qgtb (q_change d) 0 then "+" else "" in
  "  " +:+ q_name d +:+ " (" +:+ sym +:+ "): $" +:+ repr_float x (q_price d)
       +:+ " (" +:+ sign +:+ repr_float x (q_change d) +:+ "%)".

Definition vix_line (x : externals) (v : quote) : string :=
  let sign := if Qgtb (q_change v) 0 then "+" else "" in
  "  VIX: " +:+ repr_float x (q_price v) +:+ " (" +:+ sign
       +:+ repr_float x (q_change v) +:+ "%) - " +:+ default "" (q_status v).

(** [format_market_for_prompt(data)] *)
Definition format_market_for_prompt (x : externals) (data : option market_data)
  : string :=
  match data with
  | None => ""
  | Some data =>
      let lines := ["Current Market Conditions:"] in
      let lines :=
        fold_left
          (fun lines sym =>
             match assoc_lookup (md_quotes data) sym with
             | Some d => lines ++ [quote_line x sym d]
             | None => lines
             end)
          ["^GSPC"; "^NDX"; "^RUT"; "^DJI"; "GLD"; "BTC-USD"; "TLT"; "VIX"]
          lines in
      let lines :=
        match assoc_lookup (md_quotes data) "VIX" with
        | Some v => lines ++ [vix_line x v]
        | None => lines
        end in
      let lines :=
        lines ++ ["  Overall Sentiment: " +:+ icon (md_sentiment data) +:+ " "
                  +:+ label (md_sentiment data)] in
      PyStr.join PyStr.nl lines
  end.

Definition sentiment_json (s : sentiment) : json :=
  JObj [("label", JStr (label s)); ("color", JStr (color s));
        ("icon", JStr (icon s))].

(** ** Requests and responses *)

(** [request.json] either raises (no JSON body) or yields a JSON value. *)
Record request := { req_json : outcome json }.

(** [jsonify(body), status] *)
Record response := { status : Z; body : json }.

Definition jsonify (j : json) : response := {| status := 200; body := j |}.
Definition jsonify_status (j : json) (code : Z) : response :=
  {| status := code; body := j |}.
Definition error_response (msg : string) (code : Z) : response :=
  jsonify_status (JObj [("error", JStr msg)]) code.

(** A handler body under its [except] clauses. *)
Definition run_handler (body : M response) (on_exn : exn -> response)
  : world -> response * world :=
  fun w => match body w with
           | (Ret r, w') => (r, w')
           | (Raise e, w') => (on_exn e, w')
           end.

(** [except Exception as e: return jsonify({'error': str(e)}), 500] *)
Definition on_exception (e : exn) : response := error_response (str_exn e) 500.

(** [except PermissionError: ...] followed by [except Exception as e: ...] *)
Definition on_permission_error (msg : string) (e : exn) : response :=
  match exn_cls e with
  | PermissionError => error_response msg 500
  | _ => on_exception e
  end.

(** A value inside an f-string. *)
Definition py_format (x : externals) (j : json) : string :=
  match j with
  | JStr s => s
  | _ => repr_json x j
  end.

(** [for item in x] *)
Definition py_iter (x : json) : outcome (list json) :=
  match x with
  | JList l => Ret l
  | JObj d => Ret (JStr <$> dict_keys d)
  | JStr s => Ret (JStr <$> PyStr.chars s)
  | _ => Raise (Exn TypeError ("'" +:+ type_name x +:+ "' object is not iterable"))
  end.

(** [len(x)] *)
Definition py_len (x : json) : outcome Z :=
  match x with
  | JList l => Ret (Z.of_nat (length l))
  | JObj d => Ret (Z.of_nat (length d))
  | JStr s => Ret (Z.of_nat (PyStr.len s))
  | _ => Raise (Exn TypeError
                  ("object of type '" +:+ type_name x +:+ "' has no len()"))
  end.

(** A number as Python orders it: a bool counts as an int. *)
Inductive num := NInt (z : Z) | NFloat (q : Q).

Definition as_num (j : json) : outcome num :=
  match j with
  | JInt z => Ret (NInt z)
  | JBool b => Ret (NInt (Z.b2z b))
  | JFloat q => Ret (NFloat q)
  | _ => Raise (Exn TypeError
                  ("'<' not supported between instances of '" +:+ type_name j
                   +:+ "' and 'int'"))
  end.

Definition num_ltb (a : num) (z : Z) : bool :=
  match a with NInt x => x <? z | NFloat q => Qltb q (inject_Z z) end.
Definition num_geb (a : num) (z : Z) : bool :=
  match a with NInt x => z <=? x | NFloat q => Qle_bool (inject_Z z) q end.
Definition num_add (z : Z) (a : num) : num :=
  match a with NInt x => NInt (z + x) | NFloat q => NFloat (inject_Z z + q) end.

(** [SYSTEM_PROMPT] *)
Definition SYSTEM_PROMPT : string := "You are my Trading Journal. Each time I speak or ramble, convert my thoughts into a structured trading-journal entry. Extract and organize only what I actually say:

‚Ä¢ My emotional state
‚Ä¢ Market conditions I mentioned
‚Ä¢ Trades I took or considered
‚Ä¢ My reasoning and expectations
‚Ä¢ Mistakes I noticed
‚Ä¢ Lessons learned
‚Ä¢ Follow-up items for the next session

Rules:
‚Ä¢ Keep the tone neutral, factual, and concise.
‚Ä¢ If I speak in fragments or ramble, infer structure but do not invent facts.
‚Ä¢ Do not add commentary beyond what I explicitly said.
‚Ä¢ Reorganize my thoughts into a clean, professional journal entry.

End each entry with:
‚Ä¢ A short 2‚Äì3 sentence summary
‚Ä¢ 1‚Äì3 reflection questions that would help me improve

Format the entry with clear section headers using bullet points. Start with a header line showing the date and time provided.

If market data is provided, incorporate relevant observations into the Market Conditions section.".

(** [client.messages.create(...)]: the call is logged, the service answers. *)
Definition llm_create (rq : llm_request) : M (list string) :=
  fun w => (llm_reply (ext w) (length (llm_log w)) rq,
            set_llm_log w (llm_log w ++ [rq])).

(** ** /api/process-entry *)

(** The message built from the timestamp, the optional market block and the
    raw text. *)
Definition build_message (include_market : json) (timestamp : string)
    (raw_text : json) : M string :=
  let* w := get_world in
  let msg := "Date/Time: " +:+ timestamp +:+ PyStr.nl +:+ PyStr.nl in
  let* msg :=
    if truthy include_market then
      let* market_data := get_market_data in
      match market_data with
      | Some _ =>
          ret (msg +:+ format_market_for_prompt (ext w) market_data
                   +:+ PyStr.nl +:+ PyStr.nl)
      | None => ret msg
      end
    else ret msg in
  ret (msg +:+ "My trading thoughts:" +:+ PyStr.nl +:+ py_format (ext w) raw_text).

Definition api_process_entry (rq : request) : world -> response * world :=
  run_handler
    (let* data := lift (req_json rq) in
     let* raw_text := lift (py_get data "text" (JStr "")) in
     let* include_market := lift (py_get data "include_market" (JBool true)) in
     if negb (truthy raw_text) then ret (error_response "No text provided" 400)
     else
       let* w := get_world in
       let api_key := get_api_key w in
       if negb (truthy api_key)
       then ret (error_response "API key not configured" 400)
       else
         let* timestamp := get_est_timestamp in
         let* msg := build_message include_market timestamp raw_text in
         let* content :=
           llm_create {| llm_api_key := api_key;
                         llm_model := "claude-sonnet-4-20250514";
                         llm_max_tokens := 2000;
                         llm_system := SYSTEM_PROMPT;
                         llm_messages := [("user", msg)] |} in
         let* formatted_entry :=
           match content with
           | t :: _ => ret t
           | [] => raise (Exn IndexError "list index out of range")
           end in
         let* market_data := get_market_data in
         let sentiment :=
           match market_data with
           | Some md => sentiment_json (md_sentiment md)
           | None => JObj []
           end in
         ret (jsonify (JObj [("timestamp", JStr timestamp);
                             ("sentiment", sentiment);
                             ("content", JStr formatted_entry);
                             ("raw_text", raw_text)])))
    on_exception.

(** ** /api/save-journal *)

(** The dict built for one request entry in cloud mode.  [entry.get] is
    looked up before its default is computed, so a non-dict raises before
    the clock is read. *)
Definition make_cloud_entry (entry : json) : M json :=
  match entry with
  | JObj d =>
      let* now := get_est_timestamp in
      let* saved_at := read_clock utc_isoformat_at in
      ret (JObj [("timestamp", dict_get d "timestamp" (JStr now));
                 ("sentiment", dict_get d "sentiment" (JObj []));
                 ("content", dict_get d "content" (JStr ""));
                 ("saved_at", JStr saved_at)])
  | _ => raise (no_attribute entry "get")
  end.

(** The cloud loop; [Some r] is the early [return] of a failed save. *)
Fixpoint save_cloud_entries (entries : list json) : M (option response) :=
  match entries with
  | [] => ret None
  | entry :: rest =>
      let* cloud_entry := make_cloud_entry entry in
      let* saved := add_cloud_entry cloud_entry None in
      if negb saved then ret (Some (error_response "Failed to save entry" 500))
      else save_cloud_entries rest
  end.

(** [Document(path)]: python-docx first asks [zipfile.is_zipfile(path)],
    which answers False for a file that is missing, cannot be opened or is
    no zip archive; the package is then reported as not found, whatever the
    reason. *)
Definition package_not_found (path : string) : exn :=
  Exn OtherException ("Package not found at '" +:+ path +:+ "'").

Definition open_document (w : world) (path : string) : outcome document :=
  match read_fault w !! path with
  | Some _ => Raise (package_not_found path)
  | None =>
      match fs w !! path with
      | Some (DocxFile doc) => Ret doc
      | _ => Raise (package_not_found path)
      end
  end.

(** [doc.save(path)] *)
Definition save_document (path : string) (doc : document) : M unit :=
  fun w => match write_fault w !! path with
           | Some (AtOpen, e) => (Raise e, w)
           | Some (AfterOpen, e) =>
               (Raise e, set_fs w (<[path := OtherFile]> (fs w)))
           | None => (Ret tt, set_fs w (<[path := DocxFile doc]> (fs w)))
           end.

(** [doc.add_paragraph(text)]: python-docx adds a run only for a text that
    is true, and a run takes a string. *)
Definition add_paragraph (doc : document) (text : json) : outcome document :=
  match text with
  | JStr s => Ret (doc ++ [Text s])
  | _ => if truthy text
         then Raise (Exn TypeError
                       ("'" +:+ type_name text +:+ "' object is not iterable"))
         else Ret (doc ++ [Text ""])
  end.

(** [needle in x] for a string [needle]. *)
Definition py_in (needle : string) (x : json) : outcome bool :=
  match x with
  | JStr s => Ret (PyStr.contains needle s)
  | JList l =>
      Ret (existsb (fun j => match j with
                             | JStr s => String.eqb s needle
                             | _ => false
                             end) l)
  | JObj d => Ret (bool_decide (is_Some (dict_lookup d needle)))
  | _ => Raise (Exn TypeError
                  ("argument of type '" +:+ type_name x +:+ "' is not iterable"))
  end.

Definition rule_line : string := PyStr.repeat "‚ïê" 60.

(** The [try] around the image download: the paragraphs it leaves behind. *)
Definition embed_image (x : externals) (doc : document)
    (line line_stripped : string) : document :=
  match PyStr.split_once "]: " line_stripped with
  | [_; rest] =>
      let url := PyStr.strip rest in
      match http_get x url with
      | Raise _ => doc ++ [Text line]
      | Ret (status_code, content) =>
          if status_code =? 200 then
            if picture_ok x content
            then doc ++ [Text ""; Picture content; Text ""]
            else doc ++ [Text ""; Text ""; Text line]
          else doc ++ [Text line]
      end
  | _ => doc ++ [Text line]
  end.

(** The loop over [content.split('\n')]. *)
Definition add_content_lines (x : externals) (doc : document) (content : string)
  : document :=
  fold_left
    (fun doc line =>
       let line_stripped := PyStr.strip line in
       if negb (truthy (JStr line_stripped)) then doc
       else if PyStr.startswith line_stripped "[Image"
               && PyStr.contains "cloudinary.com" line_stripped
       then embed_image x doc line line_stripped
       else doc ++ [Text line])
    (PyStr.split_char "010" content) doc.

(** The body of the local loop for one entry. *)
Definition add_docx_entry (x : externals) (doc : document) (entry : json)
  : outcome document :=
  let doc := if (1 <? length doc)%nat then doc ++ [PageBreak] else doc in
  let doc := doc ++ [Text rule_line; Text "TRADING JOURNAL ENTRY"] in
  match py_get entry "timestamp" (JStr "") with
  | Raise e => Raise e
  | Ret timestamp =>
  match add_paragraph doc timestamp with
  | Raise e => Raise e
  | Ret doc =>
  match py_get entry "sentiment" (JObj []) with
  | Raise e => Raise e
  | Ret sentiment =>
  match
    (if truthy sentiment then
       match py_get sentiment "icon" (JStr ""),
             py_get sentiment "label" (JStr "") with
       | Ret icon, Ret label =>
           match py_in "BULLISH" label with
           | Raise e => Raise e
           | Ret _ =>
               Ret (doc ++ [Text ("Market Sentiment: " +:+ py_format x icon
                                  +:+ " " +:+ py_format x label)])
           end
       | Raise e, _ | _, Raise e => Raise e
       end
     else Ret doc)
  with
  | Raise e => Raise e
  | Ret doc =>
  let doc := doc ++ [Text rule_line] in
  match py_get entry "content" (JStr "") with
  | Raise e => Raise e
  | Ret (JStr content) => Ret (add_content_lines x doc content)
  | Ret content => Raise (no_attribute content "split")
  end end end end end.

Fixpoint add_docx_entries (x : externals) (doc : document) (entries : list json)
  : outcome document :=
  match entries with
  | [] => Ret doc
  | entry :: rest =>
      match add_docx_entry x doc entry with
      | Raise e => Raise e
      | Ret doc => add_docx_entries x doc rest
      end
  end.

Definition api_save_journal (rq : request) : world -> response * world :=
  run_handler
    (let* data := lift (req_json rq) in
     let* entries := lift (py_get data "entries" (JList [])) in
     if negb (truthy entries) then ret (error_response "No entries to save" 400)
     else
       let* w := get_world in
       if IS_CLOUD w then
         let* items := lift (py_iter entries) in
         let* early := save_cloud_entries items in
         match early with
         | Some r => ret r
         | None =>
             let* count := lift (py_len entries) in
             ret (jsonify (JObj [("success", JBool true); ("count", JInt count);
                                 ("mode", JStr "cloud")]))
         end
       else if negb (docx_installed w)
       then ret (error_response "python-docx not installed" 500)
       else
         let* doc :=
           if path_exists w (JOURNAL_PATH w)
           then lift (open_document w (JOURNAL_PATH w))
           else ret [Heading "Trading Journal"] in
         let* items := lift (py_iter entries) in
         let* doc := lift (add_docx_entries (ext w) doc items) in
         let* _ := save_document (JOURNAL_PATH w) doc in
         let* count := lift (py_len entries) in
         ret (jsonify (JObj [("success", JBool true); ("count", JInt count);
                             ("path", JStr (JOURNAL_PATH w))])))
    (on_permission_error "File is open in another program").

(** ** /api/view-journal *)

(** ['\n'.join(parts)]: every part has to be a string. *)
Definition join_lines (parts : list json) : outcome string :=
  match
    foldr (fun p acc =>
             match p, acc with
             | JStr s, Some l => Some (s :: l)
             | _, _ => None
             end) (Some []) parts
  with
  | Some l => Ret (PyStr.join PyStr.nl l)
  | None => Raise (Exn TypeError "sequence item: expected str instance")
  end.

(** The parts appended for one entry of the cloud journal. *)
Definition view_parts (x : externals) (entry : json) : outcome (list json) :=
  match py_get entry "timestamp" (JStr "") with
  | Raise e => Raise e
  | Ret timestamp =>
  match py_get entry "sentiment" JNull with
  | Raise e => Raise e
  | Ret s =>
  match
    (if truthy s then
       match py_get s "icon" (JStr ""), py_get s "label" (JStr "") with
       | Ret icon, Ret label =>
           Ret [JStr ("Market Sentiment: " +:+ py_format x icon +:+ " "
                      +:+ py_format x label)]
       | Raise e, _ | _, Raise e => Raise e
       end
     else Ret [])
  with
  | Raise e => Raise e
  | Ret sentiment_part =>
  match py_get entry "content" (JStr "") with
  | Raise e => Raise e
  | Ret content =>
      Ret ([JStr rule_line; JStr "TRADING JOURNAL ENTRY"; timestamp]
           ++ sentiment_part ++ [JStr rule_line; content; JStr ""])
  end end end end.

Fixpoint collect {A B} (f : A -> outcome (list B)) (l : list A)
  : outcome (list B) :=
  match l with
  | [] => Ret []
  | a :: rest =>
      match f a with
      | Raise e => Raise e
      | Ret bs =>
          match collect f rest with
          | Raise e => Raise e
          | Ret r => Ret (bs ++ r)
          end
      end
  end.

Definition api_view_journal (rq : request) : world -> response * world :=
  run_handler
    (let* w := get_world in
     if IS_CLOUD w then
       let journal := load_cloud_journal w None in
       let* entries := lift (py_getitem journal "entries") in
       if negb (truthy entries)
       then ret (jsonify (JObj [("content", JNull);
                                ("message", JStr "No journal entries found")]))
       else
         let* items := lift (py_iter entries) in
         let* content_parts := lift (collect (view_parts (ext w)) items) in
         let* content := lift (join_lines content_parts) in
         ret (jsonify (JObj [("content", JStr content)]))
     else if negb (path_exists w (JOURNAL_PATH w))
     then ret (jsonify (JObj [("content", JNull);
                              ("message", JStr "No journal file found")]))
     else if negb (docx_installed w)
     then ret (error_response "python-docx not installed" 500)
     else
       let* doc := lift (open_document w (JOURNAL_PATH w)) in
       let content :=
         List.filter (fun text => truthy (JStr text))
                     ((fun para => PyStr.strip (para_text para)) <$> doc) in
       ret (jsonify (JObj [("content", JStr (PyStr.join PyStr.nl content))])))
    (on_permission_error "Journal file is open in another program").

(** ** /api/list-entries *)

(** The dict listed for one entry of the cloud journal. *)
Definition entry_summary (entry : json) : outcome json :=
  match entry with
  | JObj d =>
      let content := dict_get d "content" JNull in
      match
        (if truthy content then
           match content with
           | JStr c => Ret (JStr (PyStr.take 100 c +:+ "..."))
           | _ => Raise (Exn TypeError "unsupported operand type(s) for +")
           end
         else Ret (JStr ""))
      with
      | Raise e => Raise e
      | Ret preview =>
          match py_get (dict_get d "sentiment" (JObj [])) "label" (JStr "") with
          | Raise e => Raise e
          | Ret label =>
              Ret (JObj [("timestamp", dict_get d "timestamp" (JStr ""));
                         ("sentiment", label);
                         ("preview", preview);
                         ("content", dict_get d "content" (JStr ""))])
          end
      end
  | _ => Raise (no_attribute entry "get")
  end.

(** The entry that the document parser saves. *)
Definition is_preview_line (l : string) : bool :=
  truthy (JStr l) && negb (PyStr.startswith l "‚ïê")
  && negb (String.eqb l "TRADING JOURNAL ENTRY")
  && negb (PyStr.contains "Market Sentiment" l).

Definition docx_entry (current_entry : list string) (entry_timestamp : string)
    (entry_sentiment : option string) : json :=
  let content := PyStr.join PyStr.nl current_entry in
  let preview_lines := List.filter is_preview_line current_entry in
  let preview :=
    match preview_lines with
    | [] => ""
    | _ => PyStr.take 100 (PyStr.join " " preview_lines) +:+ "..."
    end in
  JObj [("timestamp", JStr entry_timestamp);
        ("sentiment", from_option JStr JNull entry_sentiment);
        ("preview", JStr preview);
        ("content", JStr content)].

Definition day_names : list string :=
  ["Monday"; "Tuesday"; "Wednesday"; "Thursday"; "Friday"; "Saturday"; "Sunday"].

(** The state of the parser: entries, current_entry, entry_timestamp,
    entry_sentiment. *)
Definition parser_state : Type :=
  list json * list string * option string * option string.

Definition flush_entry (st : parser_state) : list json :=
  let '(entries, current_entry, entry_timestamp, entry_sentiment) := st in
  match current_entry, entry_timestamp with
  | _ :: _, Some ts =>
      if truthy (JStr ts)
      then entries ++ [docx_entry current_entry ts entry_sentiment]
      else entries
  | _, _ => entries
  end.

(** One turn of the loop over [doc.paragraphs]. *)
Definition parse_paragraph (st : parser_state) (p : para) : parser_state :=
  let '(entries, current_entry, entry_timestamp, entry_sentiment) := st in
  let text := PyStr.strip (para_text p) in
  if PyStr.startswith text (PyStr.repeat "‚ïê" 20)
     || String.eqb text "TRADING JOURNAL ENTRY" then
    let entries := flush_entry st in
    if String.eqb text "TRADING JOURNAL ENTRY"
    then (entries, [text], None, None)
    else (entries, [text], entry_timestamp, entry_sentiment)
  else
    let current_entry := current_entry ++ [text] in
    let entry_timestamp :=
      match entry_timestamp with
      | None =>
          if truthy (JStr text) && negb (PyStr.startswith text "‚ïê")
             && negb (PyStr.contains "Market Sentiment" text)
             && existsb (fun day => PyStr.contains day text) day_names
          then Some text else None
      | Some ts => Some ts
      end in
    let entry_sentiment :=
      if PyStr.contains "Market Sentiment:" text
      then Some (PyStr.strip (PyStr.replace "Market Sentiment:" "" text))
      else entry_sentiment in
    (entries, current_entry, entry_timestamp, entry_sentiment).

Definition parse_document (doc : document) : list json :=
  flush_entry (fold_left parse_paragraph doc ([], [], None, None)).

Definition api_list_entries (rq : request) : world -> response * world :=
  run_handler
    (let* w := get_world in
     if IS_CLOUD w then
       let journal := load_cloud_journal w None in
       let* stored := lift (py_getitem journal "entries") in
       if negb (truthy stored)
       then ret (jsonify (JObj [("entries", JList []);
                                ("message", JStr "No journal entries found")]))
       else
         let* items := lift (py_iter stored) in
         let* entries :=
           lift (collect (fun e => match entry_summary e with
                                   | Ret j => Ret [j]
                                   | Raise x => Raise x
                                   end) items) in
         ret (jsonify (JObj [("entries", JList (take 10 (reverse entries)))]))
     else if negb (path_exists w (JOURNAL_PATH w))
     then ret (jsonify (JObj [("entries", JList []);
                              ("message", JStr "No journal file found")]))
     else if negb (docx_installed w)
     then ret (error_response "python-docx not installed" 500)
     else
       let* doc := lift (open_document w (JOURNAL_PATH w)) in
       let entries := parse_document doc in
       ret (jsonify (JObj [("entries", JList (take 10 (reverse entries)))])))
    (on_permission_error "Journal file is open in another program").

(** ** /api/delete-entry *)

(** [entries.pop(i)] on the journal's own list, for an index already found
    in range: the element taken out and the journal that results. *)
Definition pop_entry (journal entries : json) (i : num) : outcome (json * json) :=
  match entries, i with
  | JList l, NInt z =>
      match l !! Z.to_nat z with
      | Some deleted =>
          Ret (deleted,
               match journal with
               | JObj d => JObj (dict_set d "entries" (JList (delete (Z.to_nat z) l)))
               | _ => journal
               end)
      | None => Raise (Exn IndexError "pop index out of range")
      end
  | JList _, NFloat _ =>
      Raise (Exn TypeError "'float' object cannot be interpreted as an integer")
  | JObj _, _ => Raise (Exn KeyError "pop")
  | _, _ => Raise (no_attribute entries "pop")
  end.

Definition api_delete_entry (rq : request) : world -> response * world :=
  run_handler
    (let* data := lift (req_json rq) in
     let* entry_index := lift (py_get data "index" JNull) in
     match entry_index with
     | JNull => ret (error_response "Missing entry index" 400)
     | _ =>
       let* w := get_world in
       if IS_CLOUD w then
         let journal := load_cloud_journal w None in
         let* entries := lift (py_get journal "entries" (JList [])) in
         let* idx := lift (as_num entry_index) in
         let* idx :=
           if num_ltb idx 0 then
             let* n := lift (py_len entries) in ret (num_add n idx)
           else ret idx in
         let* in_range :=
           if num_geb idx 0 then
             let* n := lift (py_len entries) in ret (num_ltb idx n)
           else ret false in
         if in_range then
           let* popped := lift (pop_entry journal entries idx) in
           let '(deleted, journal) := popped in
           let* _ := save_cloud_journal journal None in
           let* timestamp := lift (py_get deleted "timestamp" (JStr "Unknown")) in
           ret (jsonify (JObj [("success", JBool true); ("deleted", timestamp)]))
         else ret (error_response "Entry not found" 404)
       else ret (error_response "Delete not supported in local mode" 400)
     end)
    on_exception.

(** ** /api/update-entry

    app.py defines [api_update_entry] twice; the second definition, by
    index, is the one embedded here. *)

(** The three item assignments on [entries[entry_index]]; the clock is read
    between the first and the preview. *)
Definition update_entry (journal entries : json) (i : num) (new_content : json)
  : M json :=
  match entries, i with
  | JList l, NInt z =>
      match l !! Z.to_nat z with
      | Some (JObj e) =>
          let e := dict_set e "content" new_content in
          let* edited := read_clock local_minute_at in
          let e := dict_set e "edited" (JStr edited) in
          match new_content with
          | JStr c =>
              let preview_text := PyStr.replace PyStr.nl " " (PyStr.take 150 c) in
              let preview_text :=
                if (150 <? PyStr.len c)%nat then preview_text +:+ "..."
                else preview_text in
              let e := dict_set e "preview" (JStr preview_text) in
              ret (match journal with
                   | JObj d =>
                       JObj (dict_set d "entries"
                               (JList (<[Z.to_nat z := JObj e]> l)))
                   | _ => journal
                   end)
          | JList _ => raise (no_attribute new_content "replace")
          | _ => raise (Exn TypeError
                          ("'" +:+ type_name new_content
                           +:+ "' object is not subscriptable"))
          end
      | Some v =>
          raise (Exn TypeError
                   ("'" +:+ type_name v
                    +:+ "' object does not support item assignment"))
      | None => raise (Exn IndexError "list index out of range")
      end
  | JList _, NFloat _ =>
      raise (Exn TypeError "list indices must be integers or slices, not float")
  | JObj _, _ => raise (Exn KeyError "index")
  | _, _ =>
      raise (Exn TypeError
               ("'" +:+ type_name entries
                +:+ "' object does not support item assignment"))
  end.

Definition api_update_entry (rq : request) : world -> response * world :=
  run_handler
    (let* data := lift (req_json rq) in
     let* entry_index := lift (py_get data "index" JNull) in
     let* new_content := lift (py_get data "content" JNull) in
     match entry_index with
     | JNull => ret (error_response "Missing entry index" 400)
     | _ =>
       if negb (truthy new_content)
       then ret (error_response "Missing content" 400)
       else
         let* w := get_world in
         if IS_CLOUD w then
           let journal := load_cloud_journal w None in
           let* entries := lift (py_get journal "entries" (JList [])) in
           let* idx := lift (as_num entry_index) in
           let* in_range :=
             if num_geb idx 0 then
               let* n := lift (py_len entries) in ret (num_ltb idx n)
             else ret false in
           if in_range then
             let* journal := update_entry journal entries idx new_content in
             let* _ := save_cloud_journal journal None in
             ret (jsonify (JObj [("success", JBool true);
                                 ("message", JStr "Entry updated")]))
           else ret (error_response "Entry not found" 404)
         else ret (error_response "Update not supported in local mode" 400)
     end)
    on_exception.

(** ** /api/clear-journal *)

Definition api_clear_journal (rq : request) : world -> response * world :=
  run_handler
    (let* w := get_world in
     if IS_CLOUD w then
       let* _ := save_cloud_journal (JObj [("entries", JList [])]) None in
       ret (jsonify (JObj [("success", JBool true);
                           ("message", JStr "Journal cleared")]))
     else
       ret (error_response
              "Clear not supported in local mode - delete the Word file manually"
              400))
    on_exception.

(** The journal of the current user as it stands in the file system. *)
Definition stored_journal (w : world) : option file :=
  fs w !! get_user_journal_path w None.

(** ** Sample externals and worlds, to run the handlers on *)

Definition offline : exn := Exn OtherException "offline".

Definition sample_externals : externals := {|
  est_timestamp_at := fun _ => "Monday, January 05, 2026 09:30 AM EST";
  utc_isoformat_at := fun _ => "2026-01-05T14:30:00+00:00";
  local_minute_at := fun _ => "2026-01-05 09:30";
  est_clock_at := fun _ => "09:30:00 AM EST";
  round2 := fun q => q;
  repr_float := fun _ => "0.0";
  repr_json := fun _ => "";
  yf_history := fun _ _ => Raise offline;
  yf_previous_close := fun _ => Raise offline;
  llm_reply := fun _ _ => Ret ["Journal entry"];
  http_get := fun _ => Raise offline;
  picture_ok := fun _ => false
|}.

Definition sample_world (env : gmap string string) (files : gmap string file)
  : world :=
  {| ext := sample_externals; environ := env; app_dir := "/app";
     home_dir := "/home/user"; docx_installed := true; yf_installed := true;
     session_username := None; fs := files; read_fault := ∅;
     write_fault := ∅; clock_reads := 0; market_fetches := 0; llm_log := [] |}.

Definition cloud_env : gmap string string := {[ "IS_CLOUD" := "true" ]}.

Definition post (j : json) : request := {| req_json := Ret j |}.

(** ['entries' in journal], for a journal that is a dict. *)
Definition has_entries (journal : json) : bool :=
  match journal with
  | JObj d => bool_decide (is_Some (dict_lookup d "entries"))
  | _ => false
  end.

(** The entry that save-journal stores in cloud mode for the request entry
    [d], when the clock renders [now] and then [saved_at]. *)
Definition normalized_entry (d : dict) (now saved_at : string) : json :=
  JObj [("timestamp", dict_get d "timestamp" (JStr now));
        ("sentiment", dict_get d "sentiment" (JObj []));
        ("content", dict_get d "content" (JStr ""));
        ("saved_at", JStr saved_at)].

(** The normalized entries of a request list, the first of them made at
    clock reading [c0]; each entry reads the clock twice. *)
Definition normalized_entries (x : externals) (c0 : nat) (ds : list dict)
  : list json :=
  imap (fun k d => normalized_entry d (est_timestamp_at x (c0 + 2 * k))
                                      (utc_isoformat_at x (S (c0 + 2 * k)))) ds.

(** An entry as the data model has it: a dict whose sentiment, when there is
    one, is a dict and whose content, when there is one, is a string or a
    false value. *)
Definition well_formed_entry (entry : json) : bool :=
  match entry with
  | JObj d =>
      match dict_lookup d "sentiment" with
      | None | Some (JObj _) => true
      | Some _ => false
      end
      && match dict_lookup d "content" with
         | None | Some (JStr _) => true
         | Some c => negb (truthy c)
         end
  | _ => false
  end.

(** Two worlds that differ at most in their files and counters. *)
Definition same_setting (w w' : world) : Prop :=
  ext w' = ext w /\ environ w' = environ w /\ app_dir w' = app_dir w
  /\ home_dir w' = home_dir w /\ docx_installed w' = docx_installed w
  /\ yf_installed w' = yf_installed w
  /\ session_username w' = session_username w
  /\ read_fault w' = read_fault w /\ write_fault w' = write_fault w.



(** * Properties of the handlers *)

From Stdlib Require Import Lqa.

(** ** Sentiment *)





(** ** Dicts *)

Section AssocFacts.
Context {V : Type}.
Implicit Types (d : list (string * V)) (k : string) (v : V).

Lemma assoc_lookup_set_eq d k v : assoc_lookup (assoc_set d k v) k = Some v.
Proof.
  induction d as [|[k' v'] d IH]; simpl.
  - by rewrite String.eqb_refl.
  - destruct (String.eqb k' k) eqn:E; simpl; by rewrite E.
Qed.

Lemma assoc_lookup_set_ne d k k' v :
  k <> k' -> assoc_lookup (assoc_set d k v) k' = assoc_lookup d k'.
Proof.
  intros Hne. induction d as [|[k0 v0] d IH]; simpl.
  - destruct (String.eqb_spec k k'); [done|reflexivity].
  - destruct (String.eqb_spec k0 k) as [->|Hk]; simpl.
    + destruct (String.eqb_spec k k'); [done|reflexivity].
    + by rewrite IH.
Qed.

(** Assigning to a key keeps the keys that are there, in their order. *)
Lemma assoc_set_keys_present d k v :
  is_Some (assoc_lookup d k) -> (assoc_set d k v).*1 = d.*1.
Proof.
  induction d as [|[k0 v0] d IH]; simpl.
  - by intros [? ?].
  - destruct (String.eqb_spec k0 k) as [->|Hk]; simpl; [done|].
    intros H. f_equal. by apply IH.
Qed.
End AssocFacts.

(** ** The journal file of a user *)

Lemma journal_path_set_fs w f u :
  get_user_journal_path (set_fs w f) u = get_user_journal_path w u.
Proof. reflexivity. Qed.

Lemma save_cloud_journal_run data u w :
  save_cloud_journal data u w =
    match write_fault w !! get_user_journal_path w u with
    | Some (AtOpen, _) => (Ret false, w)
    | Some (AfterOpen, _) =>
        (Ret false, set_fs w (<[get_user_journal_path w u := OtherFile]> (fs w)))
    | None =>
        (Ret true,
         set_fs w (<[get_user_journal_path w u := JsonFile data]> (fs w)))
    end.
Proof.
  unfold save_cloud_journal, bind, get_world, try_except, write_json, ret.
  by destruct (write_fault w !! get_user_journal_path w u) as [[[] ?]|].
Qed.

(** What is loaded is either the empty journal or the JSON of the file. *)
Lemma load_cloud_journal_cases w u :
  (load_cloud_journal w u = empty_journal
   /\ (fs w !! get_user_journal_path w u = None
       \/ is_Some (read_fault w !! get_user_journal_path w u)
       \/ (exists f, fs w !! get_user_journal_path w u = Some f
                     /\ forall j, f <> JsonFile j)))
  \/ (read_fault w !! get_user_journal_path w u = None
      /\ fs w !! get_user_journal_path w u = Some (JsonFile (load_cloud_journal w u))).
Proof.
  unfold load_cloud_journal, path_exists, read_json.
  set (p := get_user_journal_path w u).
  destruct (fs w !! p) as [f|] eqn:Ef.
  - rewrite bool_decide_eq_true_2 by eauto.
    destruct (read_fault w !! p) as [e|] eqn:Er.
    + left. split; [done|]. right. left. eauto.
    + destruct f as [j|doc|].
      * right. done.
      * left. split; [done|]. right. right. eexists. split; [done|]. congruence.
      * left. split; [done|]. right. right. eexists. split; [done|]. congruence.
  - rewrite bool_decide_eq_false_2; [|by intros [? ?]]. left. by split; [|left].
Qed.

(** A journal that has entries was read from the file. *)
Lemma loaded_entries_readable w u j e :
  load_cloud_journal w u = JObj j ->
  dict_lookup j "entries" = Some (JList e) ->
  e <> [] ->
  read_fault w !! get_user_journal_path w u = None.
Proof.
  intros Hl He Hne.
  destruct (load_cloud_journal_cases w u) as [[Hempty _]|[Hr _]]; [|done].
  rewrite Hl in Hempty. injection Hempty as ->. simpl in He. congruence.
Qed.

(** After a write that goes through, a readable journal file loads as what
    was written. *)
Lemma load_after_write w u data :
  read_fault w !! get_user_journal_path w u = None ->
  load_cloud_journal
    (set_fs w (<[get_user_journal_path w u := JsonFile data]> (fs w))) u = data.
Proof.
  intros Hr. unfold load_cloud_journal, path_exists, read_json.
  rewrite journal_path_set_fs. simpl.
  rewrite lookup_insert_eq, Hr.
  by rewrite bool_decide_eq_true_2 by eauto.
Qed.

(** ** Delete by index *)

(** C1: in cloud mode, for a journal whose entries list is [e] and an index
    [i] with [0 <= i < length e], delete-entry reports success with the
    timestamp of the entry at [i] ('Unknown' when it has none) and hands to
    the store the journal whose entries are [e] without the element at
    position [i]: one element shorter, the same before [i], shifted down by
    one from [i] on.  When the journal file can be written, that journal is
    what is loaded afterwards, with its other keys in place. *)
Theorem delete_entry_removes_one (w : world) (rq : request) (d j ent : dict)
    (e : list json) (i : Z) :
  IS_CLOUD w = true ->
  req_json rq = Ret (JObj d) ->
  dict_lookup d "index" = Some (JInt i) ->
  load_cloud_journal w None = JObj j ->
  dict_lookup j "entries" = Some (JList e) ->
  0 <= i < Z.of_nat (length e) ->
  e !! Z.to_nat i = Some (JObj ent) ->
  let resp := (api_delete_entry rq w).1 in
  let w' := (api_delete_entry rq w).2 in
  let e' := delete (Z.to_nat i) e in
  resp = jsonify (JObj [("success", JBool true);
                        ("deleted", dict_get ent "timestamp" (JStr "Unknown"))])
  /\ (write_fault w !! get_user_journal_path w None = None ->
      load_cloud_journal w' None = JObj (dict_set j "entries" (JList e'))
      /\ dict_lookup (dict_set j "entries" (JList e')) "entries" = Some (JList e')
      /\ (dict_set j "entries" (JList e')).*1 = j.*1)
  /\ Z.of_nat (length e') = Z.of_nat (length e) - 1
  /\ (forall k : nat, (Z.of_nat k < i) -> e' !! k = e !! k)
  /\ (forall k : nat, (i <= Z.of_nat k) -> e' !! k = e !! S k).
Proof.
  intros Hcloud Hreq Hidx Hload Hent Hrange Hith resp w' e'.
  assert (Hne : e <> []) by (destruct e; simpl in *; [lia|done]).
  pose proof (loaded_entries_readable _ _ _ _ Hload Hent Hne) as Hread.
  assert (Hrun : api_delete_entry rq w =
    (jsonify (JObj [("success", JBool true);
                    ("deleted", dict_get ent "timestamp" (JStr "Unknown"))]),
     (save_cloud_journal (JObj (dict_set j "entries" (JList e'))) None w).2)).
  { unfold api_delete_entry, run_handler, bind, lift, get_world, ret.
    rewrite Hreq. simpl. unfold dict_get. rewrite Hidx. simpl.
    rewrite Hcloud, Hload. simpl. unfold dict_get. rewrite Hent. simpl.
    replace (i <? 0) with false by lia. simpl.
    replace (0 <=? i) with true by lia.
    replace (i <? Z.of_nat (length e)) with true by lia.
    rewrite Hith. simpl.
    destruct (save_cloud_journal _ None w) as [[b|x] w2] eqn:Es; simpl.
    - reflexivity.
    - rewrite save_cloud_journal_run in Es.
      destruct (write_fault w !! _) as [[[] ?]|]; discriminate. }
  subst resp w'. rewrite Hrun. simpl. split; [done|].
  split.
  - intros Hw. rewrite save_cloud_journal_run, Hw. simpl.
    rewrite load_after_write by done.
    split; [done|]. split.
    + apply assoc_lookup_set_eq.
    + apply assoc_set_keys_present. eauto.
  - assert (Hlt : (Z.to_nat i < length e)%nat) by lia.
    subst e'. split; [|split].
    + rewrite length_delete by eauto. lia.
    + intros k Hk. apply list_lookup_delete_lt. lia.
    + intros k Hk. apply list_lookup_delete_ge. lia.
Qed.

(** The theorem at a journal of three entries, deleting the middle one. *)
Lemma delete_entry_removes_one_witness :
  let rq := post (JObj [("index", JInt 1)]) in
  let e := [JObj [("timestamp", JStr "t0")]; JObj [("timestamp", JStr "t1")];
            JObj [("timestamp", JStr "t2")]] in
  let w := sample_world cloud_env
             {[ "/app/journal_default.json" := JsonFile (JObj [("entries", JList e)]) ]} in
  (api_delete_entry rq w).1
    = jsonify (JObj [("success", JBool true); ("deleted", JStr "t1")])
  /\ load_cloud_journal (api_delete_entry rq w).2 None
     = JObj [("entries", JList [JObj [("timestamp", JStr "t0")];
                                JObj [("timestamp", JStr "t2")]])].
Proof.
  intros rq e w.
  destruct (delete_entry_removes_one w rq [("index", JInt 1)]
              [("entries", JList e)] [("timestamp", JStr "t1")] e 1)
    as (Hresp & Hstore & _); try reflexivity.
  - simpl. lia.
  - split; [exact Hresp|].
    destruct Hstore as [Hl _]; [reflexivity|exact Hl].
Defined.

(** ** Update by index *)

Lemma string_app_empty_r (s : string) : s +:+ "" = s.
Proof.
  induction s as [|a s IH]; [reflexivity|].
  change (String a (s +:+ "") = String a s). by rewrite IH.
Qed.

(** C10 (as amended): in cloud mode, for a journal whose entries list is [e],
    an index [i] with [0 <= i < length e] and a non-empty new content [c],
    update-entry answers success and hands to the store the journal in which
    entry [i] has 'content' [c], 'edited' set to the clock's minute and
    'preview' made from the first 150 characters of [c] (line breaks turned
    into spaces, '...' added when [c] has more than 150 characters); every
    other key of entry [i], among them 'timestamp' and 'sentiment', and
    every other entry are as before.  When the journal file can be written,
    that journal is what is loaded afterwards.  A content that is empty (or
    any false value, or missing) is turned away with status 400 'Missing
    content' and the world is left as it was. *)
Theorem update_entry_frame (w : world) (rq : request) (d j ent : dict)
    (e : list json) (i : Z) (c : string) :
  req_json rq = Ret (JObj d) ->
  dict_lookup d "index" = Some (JInt i) ->
  (IS_CLOUD w = true ->
   dict_lookup d "content" = Some (JStr c) ->
   c <> "" ->
   load_cloud_journal w None = JObj j ->
   dict_lookup j "entries" = Some (JList e) ->
   0 <= i < Z.of_nat (length e) ->
   e !! Z.to_nat i = Some (JObj ent) ->
   let resp := (api_update_entry rq w).1 in
   let w' := (api_update_entry rq w).2 in
   resp = jsonify (JObj [("success", JBool true); ("message", JStr "Entry updated")])
   /\ exists ent' : dict,
       let e' := <[Z.to_nat i := JObj ent']> e in
       (write_fault w !! get_user_journal_path w None = None ->
        load_cloud_journal w' None = JObj (dict_set j "entries" (JList e'))
        /\ dict_lookup (dict_set j "entries" (JList e')) "entries" = Some (JList e'))
       /\ dict_lookup ent' "content" = Some (JStr c)
       /\ dict_lookup ent' "edited"
          = Some (JStr (local_minute_at (ext w) (clock_reads w)))
       /\ dict_lookup ent' "preview"
          = Some (JStr (PyStr.replace PyStr.nl " " (PyStr.take 150 c)
                        +:+ (if (150 <? PyStr.len c)%nat then "..." else "")))
       /\ dict_lookup ent' "timestamp" = dict_lookup ent "timestamp"
       /\ dict_lookup ent' "sentiment" = dict_lookup ent "sentiment"
       /\ (forall k, k <> "content" -> k <> "edited" -> k <> "preview" ->
                     dict_lookup ent' k = dict_lookup ent k)
       /\ length e' = length e
       /\ e' !! Z.to_nat i = Some (JObj ent')
       /\ (forall k : nat, k <> Z.to_nat i -> e' !! k = e !! k))
  /\ (truthy (dict_get d "content" JNull) = false ->
      api_update_entry rq w = (error_response "Missing content" 400, w)).
Proof.
  intros Hreq Hidx. split.
  2:{ intros Hf.
      unfold api_update_entry, run_handler, bind, lift, get_world, ret.
      rewrite Hreq. simpl. unfold dict_get at 1. rewrite Hidx. simpl.
      by rewrite Hf. }
  intros Hcloud Hc Hne Hload Hent Hrange Hith resp w'.
  assert (Hnil : e <> []) by (destruct e; simpl in *; [lia|done]).
  pose proof (loaded_entries_readable _ _ _ _ Hload Hent Hnil) as Hread.
  set (ent' := dict_set (dict_set (dict_set ent "content" (JStr c)) "edited"
                 (JStr (local_minute_at (ext w) (clock_reads w))))
                 "preview"
                 (JStr (PyStr.replace PyStr.nl " " (PyStr.take 150 c)
                        +:+ (if (150 <? PyStr.len c)%nat then "..." else "")))).
  set (w1 := set_clock_reads w (S (clock_reads w))).
  assert (Hrun : api_update_entry rq w =
    (jsonify (JObj [("success", JBool true); ("message", JStr "Entry updated")]),
     (save_cloud_journal
        (JObj (dict_set j "entries" (JList (<[Z.to_nat i := JObj ent']> e))))
        None w1).2)).
  { unfold api_update_entry, run_handler, bind, lift, get_world, ret.
    rewrite Hreq. simpl. unfold dict_get. rewrite Hidx, Hc. simpl.
    destruct (String.eqb_spec c "") as [->|_]; [done|]. simpl.
    rewrite Hcloud, Hload. simpl. unfold dict_get. rewrite Hent. simpl.
    replace (0 <=? i) with true by lia.
    replace (i <? Z.of_nat (length e)) with true by lia.
    unfold update_entry. rewrite Hith. unfold bind, read_clock, ret. simpl.
    fold w1.
    assert (Hp : (if (150 <? PyStr.len c)%nat
                  then PyStr.replace PyStr.nl " " (PyStr.take 150 c) +:+ "..."
                  else PyStr.replace PyStr.nl " " (PyStr.take 150 c))
                 = PyStr.replace PyStr.nl " " (PyStr.take 150 c)
                   +:+ (if (150 <? PyStr.len c)%nat then "..." else "")).
    { destruct (150 <? PyStr.len c)%nat; [done|].
      by rewrite string_app_empty_r. }
    rewrite Hp. fold ent'.
    destruct (save_cloud_journal _ None w1) as [[b|x] w2] eqn:Es; simpl.
    - reflexivity.
    - rewrite save_cloud_journal_run in Es.
      destruct (write_fault w1 !! _) as [[[] ?]|]; discriminate. }
  subst resp w'. rewrite Hrun. simpl. split; [done|].
  exists ent'. simpl.
  assert (Hlt : (Z.to_nat i < length e)%nat) by lia.
  split; [intros Hw; split|repeat split].
  - rewrite save_cloud_journal_run.
    change (write_fault w1) with (write_fault w).
    change (get_user_journal_path w1 None) with (get_user_journal_path w None).
    rewrite Hw. simpl. apply (load_after_write w1 None). exact Hread.
  - apply assoc_lookup_set_eq.
  - subst ent'. rewrite !assoc_lookup_set_ne by done. apply assoc_lookup_set_eq.
  - subst ent'. rewrite assoc_lookup_set_ne by done. apply assoc_lookup_set_eq.
  - subst ent'. apply assoc_lookup_set_eq.
  - subst ent'. by rewrite !assoc_lookup_set_ne by done.
  - subst ent'. by rewrite !assoc_lookup_set_ne by done.
  - intros k H1 H2 H3. subst ent'. by rewrite !assoc_lookup_set_ne by done.
  - apply length_insert.
  - by apply list_lookup_insert_eq.
  - intros k Hk. by apply list_lookup_insert_ne.
Qed.

(** The theorem at a journal of two entries, rewriting the second, and at a
    request with an empty content. *)
Lemma update_entry_frame_witness :
  let rq := post (JObj [("index", JInt 1); ("content", JStr "new text")]) in
  let rq0 := post (JObj [("index", JInt 1); ("content", JStr "")]) in
  let e := [JObj [("timestamp", JStr "t0"); ("content", JStr "a")];
            JObj [("timestamp", JStr "t1"); ("sentiment", JObj []);
                  ("content", JStr "b")]] in
  let w := sample_world cloud_env
             {[ "/app/journal_default.json" := JsonFile (JObj [("entries", JList e)]) ]} in
  (api_update_entry rq w).1
    = jsonify (JObj [("success", JBool true); ("message", JStr "Entry updated")])
  /\ (exists ent' : dict,
      load_cloud_journal (api_update_entry rq w).2 None
        = JObj [("entries", JList [JObj [("timestamp", JStr "t0"); ("content", JStr "a")];
                                   JObj ent'])]
      /\ dict_lookup ent' "content" = Some (JStr "new text")
      /\ dict_lookup ent' "timestamp" = Some (JStr "t1"))
  /\ api_update_entry rq0 w = (error_response "Missing content" 400, w).
Proof.
  intros rq rq0 e w.
  destruct (update_entry_frame w rq
              [("index", JInt 1); ("content", JStr "new text")]
              [("entries", JList e)]
              [("timestamp", JStr "t1"); ("sentiment", JObj []); ("content", JStr "b")]
              e 1 "new text") as (Hmain & _); [reflexivity|reflexivity|].
  destruct Hmain as (Hresp & ent' & Hstore & Hc & _ & _ & Ht & _);
    [reflexivity|reflexivity|discriminate|reflexivity|reflexivity
    |simpl; lia|reflexivity|].
  destruct (update_entry_frame w rq0
              [("index", JInt 1); ("content", JStr "")]
              [("entries", JList e)] [] e 1 "") as (_ & Hempty);
    [reflexivity|reflexivity|].
  split; [exact Hresp|]. split.
  - exists ent'. destruct Hstore as [Hl _]; [reflexivity|].
    split; [exact Hl|]. split; [exact Hc|exact Ht].
  - apply Hempty. reflexivity.
Defined.

(** C10 as stated fails at an empty new content: the request is turned away
    with status 400 and the entry keeps its old content. *)
Lemma update_entry_empty_content_rejected :
  let rq := post (JObj [("index", JInt 0); ("content", JStr "")]) in
  let e := [JObj [("timestamp", JStr "t0"); ("content", JStr "old")]] in
  let w := sample_world cloud_env
             {[ "/app/journal_default.json" := JsonFile (JObj [("entries", JList e)]) ]} in
  IS_CLOUD w = true
  /\ load_cloud_journal w None = JObj [("entries", JList e)]
  /\ (api_update_entry rq w).1 = error_response "Missing content" 400
  /\ load_cloud_journal (api_update_entry rq w).2 None
     = JObj [("entries", JList [JObj [("timestamp", JStr "t0");
                                      ("content", JStr "old")]])]
  /\ ~ (exists ent' : dict,
          load_cloud_journal (api_update_entry rq w).2 None
            = JObj [("entries", JList [JObj ent'])]
          /\ dict_lookup ent' "content" = Some (JStr "")).
Proof.
  intros rq e w. repeat split; try reflexivity.
  intros (ent' & Hl & Hc).
  vm_compute in Hl. injection Hl as <-. vm_compute in Hc. discriminate.
Qed.

(** ** Local mode *)

(** C3 (as amended): when [IS_CLOUD] is false, delete-entry and update-entry
    answer every request whose JSON body is an object, whatever its fields,
    with an error payload and status 400.  A request whose body is not a
    JSON object, or that carries no JSON at all, raises inside the handler
    and is answered by the generic path with status 500 and the text of the
    exception.  In every case the world, the stored journal included, is
    left as it was. *)
Theorem local_mode_rejects_delete_and_update (w : world) (rq : request) :
  IS_CLOUD w = false ->
  (forall d : dict,
     req_json rq = Ret (JObj d) ->
     (status (api_delete_entry rq w).1 = 400
      /\ (exists msg, body (api_delete_entry rq w).1 = JObj [("error", JStr msg)])
      /\ (api_delete_entry rq w).2 = w)
     /\ (status (api_update_entry rq w).1 = 400
         /\ (exists msg, body (api_update_entry rq w).1 = JObj [("error", JStr msg)])
         /\ (api_update_entry rq w).2 = w))
  /\ (forall j : json,
        req_json rq = Ret j ->
        (forall d : dict, j <> JObj d) ->
        api_delete_entry rq w
        = (error_response (str_exn (no_attribute j "get")) 500, w)
        /\ api_update_entry rq w
           = (error_response (str_exn (no_attribute j "get")) 500, w))
  /\ (forall x : exn,
        req_json rq = Raise x ->
        api_delete_entry rq w = (error_response (str_exn x) 500, w)
        /\ api_update_entry rq w = (error_response (str_exn x) 500, w)).
Proof.
  intros Hlocal. split; [|split].
  - intros d Hreq. split.
    + unfold api_delete_entry, run_handler, bind, lift, get_world, ret.
      rewrite Hreq. simpl.
      destruct (dict_get d "index" JNull); simpl; rewrite ?Hlocal; simpl; eauto.
    + unfold api_update_entry, run_handler, bind, lift, get_world, ret.
      rewrite Hreq. simpl.
      destruct (dict_get d "index" JNull); simpl; eauto;
        destruct (truthy (dict_get d "content" JNull)); simpl;
        rewrite ?Hlocal; simpl; eauto.
  - intros j Hreq Hno.
    unfold api_delete_entry, api_update_entry, run_handler, bind, lift,
      get_world, ret.
    rewrite Hreq. destruct j; try done. by destruct (Hno d).
  - intros x Hreq.
    unfold api_delete_entry, api_update_entry, run_handler, bind, lift,
      get_world, ret.
    by rewrite Hreq.
Qed.

(** The theorem at a request that names an entry and a new content, and at a
    request whose body is a list, over a local world that holds a Word
    journal. *)
Lemma local_mode_rejects_delete_and_update_witness :
  let rq := post (JObj [("index", JInt 0); ("content", JStr "text")]) in
  let w := sample_world ∅ {[ JOURNAL_PATH (sample_world ∅ ∅) :=
                              DocxFile [Heading "Trading Journal"] ]} in
  (api_delete_entry rq w).1 = error_response "Delete not supported in local mode" 400
  /\ (api_update_entry rq w).1 = error_response "Update not supported in local mode" 400
  /\ (api_delete_entry rq w).2 = w
  /\ (api_update_entry rq w).2 = w
  /\ api_delete_entry (post (JList [JInt 0])) w
     = (error_response "'list' object has no attribute 'get'" 500, w).
Proof.
  intros rq w.
  destruct (local_mode_rejects_delete_and_update w rq) as (Hobj & _);
    [reflexivity|].
  destruct (Hobj [("index", JInt 0); ("content", JStr "text")])
    as ((_ & _ & Hd) & (_ & _ & Hu)); [reflexivity|].
  destruct (local_mode_rejects_delete_and_update w (post (JList [JInt 0])))
    as (_ & Hlist & _); [reflexivity|].
  destruct (Hlist (JList [JInt 0])) as (Hl & _); [reflexivity|discriminate|].
  repeat split; try reflexivity; assumption.
Defined.

(** C3 as stated fails at a request whose JSON body is not an object: the
    lookup of the index raises and the handler answers 500. *)
Lemma local_mode_non_object_body :
  let rq := post (JList [JInt 0]) in
  let w := sample_world ∅ ∅ in
  IS_CLOUD w = false
  /\ (api_delete_entry rq w).1
     = error_response "'list' object has no attribute 'get'" 500
  /\ (api_update_entry rq w).1
     = error_response "'list' object has no attribute 'get'" 500
  /\ status (api_delete_entry rq w).1 <> 400
  /\ status (api_update_entry rq w).1 <> 400.
Proof. intros rq w. repeat split; try reflexivity; vm_compute; discriminate. Qed.

(** ** Loading the cloud journal *)

(** C9 (as amended): [load_cloud_journal] returns a value for every world and
    user name.  It is [{"entries": []}] when the user's file does not exist,
    cannot be read or does not parse as JSON; otherwise it is the JSON value
    of the file as it stands.  So the result has an 'entries' key unless the
    file holds valid JSON without one. *)
Theorem load_cloud_journal_shape (w : world) (username : option string) :
  let p := get_user_journal_path w username in
  let journal := load_cloud_journal w username in
  (fs w !! p = None -> journal = JObj [("entries", JList [])])
  /\ (is_Some (read_fault w !! p) -> journal = JObj [("entries", JList [])])
  /\ (forall f, fs w !! p = Some f -> (forall j, f <> JsonFile j) ->
                journal = JObj [("entries", JList [])])
  /\ (forall j, fs w !! p = Some (JsonFile j) -> read_fault w !! p = None ->
                journal = j)
  /\ (has_entries journal = false ->
      exists j, fs w !! p = Some (JsonFile j) /\ read_fault w !! p = None
                /\ journal = j /\ has_entries j = false).
Proof.
  intros p journal.
  destruct (load_cloud_journal_cases w username) as [[He Hc]|[Hr Hf]];
    fold p in He, Hc || fold p in Hr, Hf; fold journal in He || fold journal in Hf.
  - repeat split.
    + done.
    + done.
    + done.
    + intros j Hj Hr. destruct Hc as [Hc|[[x Hc]|(f & Hf & Hn)]].
      * congruence.
      * congruence.
      * rewrite Hj in Hf. injection Hf as <-. by destruct (Hn j).
    + rewrite He. discriminate.
  - repeat split.
    + congruence.
    + intros [x Hx]. congruence.
    + intros f Hf' Hn. rewrite Hf in Hf'. injection Hf' as <-.
      by destruct (Hn journal).
    + intros j Hj _. congruence.
    + intros Hh. exists journal. done.
Qed.

(** The theorem at a world without files and at a world where the file of
    user "ann" holds a journal. *)
Lemma load_cloud_journal_shape_witness :
  load_cloud_journal (sample_world cloud_env ∅) (Some "Ann")
    = JObj [("entries", JList [])]
  /\ load_cloud_journal
       (sample_world cloud_env
          {[ "/app/journal_ann.json" := JsonFile (JObj [("entries", JList [JInt 1])]) ]})
       (Some "Ann")
     = JObj [("entries", JList [JInt 1])].
Proof.
  split.
  - destruct (load_cloud_journal_shape (sample_world cloud_env ∅) (Some "Ann"))
      as (Habsent & _).
    apply Habsent. reflexivity.
  - destruct (load_cloud_journal_shape
                (sample_world cloud_env
                   {[ "/app/journal_ann.json" := JsonFile (JObj [("entries", JList [JInt 1])]) ]})
                (Some "Ann")) as (_ & _ & _ & Hfile & _).
    apply Hfile; reflexivity.
Defined.

(** C9 as stated fails at a journal file that holds valid JSON without an
    'entries' key: the value comes back as it is, and view-journal, which
    indexes it by 'entries', answers 500. *)
Lemma load_cloud_journal_without_entries :
  let w := sample_world cloud_env
             {[ "/app/journal_default.json" := JsonFile (JObj []) ]} in
  load_cloud_journal w None = JObj []
  /\ has_entries (load_cloud_journal w None) = false
  /\ py_getitem (load_cloud_journal w None) "entries"
     = Raise (Exn KeyError "'entries'")
  /\ (api_view_journal (post JNull) w).1 = error_response "'entries'" 500.
Proof. intros w. repeat split; reflexivity. Qed.

(** ** Configuration *)

(** After the loop over the environment, each key holds the value of its
    variable, or the empty string when the variable is unset or empty. *)
Lemma apply_env_lookup (env : gmap string string) (env_var key : string) :
  (env_var, key) ∈ env_mappings ->
  dict_lookup (apply_env env empty_config) key
    = Some (JStr (default "" (env !! env_var))).
Proof.
  intros Hin. unfold env_mappings in Hin.
  repeat (apply elem_of_cons in Hin as [Hin|Hin]; [injection Hin as -> ->|]);
    [| | | |by apply elem_of_nil in Hin];
    unfold apply_env, env_mappings, empty_config; simpl;
    (destruct (env !! "ANTHROPIC_API_KEY") as [a|]; [destruct a|]);
    (destruct (env !! "CLOUDINARY_CLOUD_NAME") as [b|]; [destruct b|]);
    (destruct (env !! "CLOUDINARY_API_KEY") as [c|]; [destruct c|]);
    (destruct (env !! "CLOUDINARY_API_SECRET") as [s|]; [destruct s|]);
    reflexivity.
Qed.

Lemma apply_file_truthy (data config : dict) (k : string) :
  truthy (dict_get config k JNull) = true ->
  dict_lookup (apply_file data config) k = dict_lookup config k.
Proof.
  revert config. induction data as [|[k0 v0] data IH]; intros config Ht; [done|].
  unfold apply_file in *. simpl.
  destruct (truthy (dict_get config k0 JNull)) eqn:E0; simpl; [by apply IH|].
  assert (k0 <> k) by (intros ->; congruence).
  rewrite IH; unfold dict_get; rewrite assoc_lookup_set_ne by done; done.
Qed.

(** A value that the file loop changes comes from the file. *)
Lemma apply_file_origin (data config : dict) (k : string) :
  dict_lookup (apply_file data config) k = dict_lookup config k
  \/ exists v, (k, v) ∈ data /\ dict_lookup (apply_file data config) k = Some v.
Proof.
  revert config. induction data as [|[k0 v0] data IH]; intros config; [by left|].
  unfold apply_file in *. simpl.
  destruct (truthy (dict_get config k0 JNull)) eqn:E0; simpl.
  - destruct (IH config) as [H|(v & Hin & H)]; [by left|].
    right. exists v. split; [by right|done].
  - destruct (IH (dict_set config k0 v0)) as [H|(v & Hin & H)].
    + destruct (decide (k0 = k)) as [->|Hne].
      * right. exists v0. split; [by left|].
        by rewrite H, assoc_lookup_set_eq.
      * left. by rewrite H, assoc_lookup_set_ne.
    + right. exists v. split; [by right|done].
Qed.

(** With each key once in the file, a key that is still empty takes the
    file's value. *)
Lemma apply_file_takes (data config : dict) (k : string) (v : json) :
  NoDup data.*1 ->
  truthy (dict_get config k JNull) = false ->
  dict_lookup data k = Some v ->
  dict_lookup (apply_file data config) k = Some v.
Proof.
  revert config. induction data as [|[k0 v0] data IH]; intros config Hnd Ht Hl;
    [done|].
  apply NoDup_cons in Hnd as [Hnotin Hnd].
  unfold apply_file in *. simpl in *.
  destruct (String.eqb_spec k0 k) as [->|Hne].
  - injection Hl as ->. rewrite Ht. simpl.
    destruct (apply_file_origin data (dict_set config k v) k) as [H|(v' & Hin & _)].
    + unfold apply_file in H. by rewrite H, assoc_lookup_set_eq.
    + destruct Hnotin. apply list_elem_of_fmap. by exists (k, v').
  - destruct (truthy (dict_get config k0 JNull)); simpl; apply IH; try done.
    unfold dict_get. by rewrite assoc_lookup_set_ne.
Qed.

(** C7 (as amended): for each of the four configuration keys, when its
    environment variable is set to a non-empty value, [load_config] returns
    that value whatever the config file holds; in cloud mode the file is not
    read at all.  A value that differs from the environment's comes from the
    file, and only for a key whose variable is unset or empty, and only in
    local mode; there, a key whose variable is unset or empty takes the
    value the file gives it. *)
Theorem load_config_env_priority (w : world) (env_var key : string) :
  (env_var, key) ∈ env_mappings ->
  let ev := default "" (environ w !! env_var) in
  (ev <> "" -> dict_lookup (load_config w) key = Some (JStr ev))
  /\ (IS_CLOUD w = true -> dict_lookup (load_config w) key = Some (JStr ev))
  /\ (dict_lookup (load_config w) key <> Some (JStr ev) ->
      ev = "" /\ IS_CLOUD w = false
      /\ exists data v, read_json w (CONFIG_PATH w) = Ret (JObj data)
                        /\ (key, v) ∈ data
                        /\ dict_lookup (load_config w) key = Some v)
  /\ (forall data v,
        ev = "" -> IS_CLOUD w = false ->
        path_exists w (CONFIG_PATH w) = true ->
        read_json w (CONFIG_PATH w) = Ret (JObj data) ->
        NoDup data.*1 ->
        dict_lookup data key = Some v ->
        dict_lookup (load_config w) key = Some v).
Proof.
  intros Hin ev.
  pose proof (apply_env_lookup (environ w) env_var key Hin) as Henv.
  fold ev in Henv.
  assert (Hfile : forall data,
            truthy (JStr ev) = true ->
            dict_lookup (apply_file data (apply_env (environ w) empty_config)) key
            = Some (JStr ev)).
  { intros data Ht. rewrite apply_file_truthy; [done|].
    unfold dict_get. by rewrite Henv. }
  assert (Hev : ev <> "" -> truthy (JStr ev) = true).
  { intros Hne. simpl. by destruct (String.eqb_spec ev ""). }
  split; [|split; [|split]].
  - intros Hne. unfold load_config.
    destruct (negb (IS_CLOUD w) && path_exists w (CONFIG_PATH w)); [|done].
    destruct (read_json w (CONFIG_PATH w)) as [[| | | | | |data]|]; auto.
  - intros Hcloud. unfold load_config. by rewrite Hcloud.
  - intros Hdiff.
    assert (He : ev = "").
    { destruct (decide (ev = "")) as [He|Hne]; [done|].
      destruct Hdiff. unfold load_config.
      destruct (negb (IS_CLOUD w) && path_exists w (CONFIG_PATH w)); [|done].
      destruct (read_json w (CONFIG_PATH w)) as [[| | | | | |data]|]; auto. }
    assert (Hc : IS_CLOUD w = false).
    { destruct (IS_CLOUD w) eqn:Hc; [|done].
      destruct Hdiff. unfold load_config. by rewrite Hc. }
    split; [done|]. split; [done|].
    unfold load_config in *.
    destruct (negb (IS_CLOUD w) && path_exists w (CONFIG_PATH w)); [|done].
    destruct (read_json w (CONFIG_PATH w)) as [[| | | | | |data]|]; try done.
    destruct (apply_file_origin data (apply_env (environ w) empty_config) key)
      as [H|(v & Hv & H)].
    + rewrite H in Hdiff. done.
    + exists data, v. done.
  - intros data v He Hc Hex Hr Hnd Hl. unfold load_config.
    rewrite Hc, Hex, Hr. simpl.
    apply apply_file_takes; try done.
    unfold dict_get. rewrite Henv, He. done.
Qed.

(** The theorem at a local world whose environment sets the API key and
    whose config file gives another key and a Cloudinary name. *)
Lemma load_config_env_priority_witness :
  let w := sample_world {[ "ANTHROPIC_API_KEY" := "env-key" ]}
             {[ "/home/user/.trading_journal_web_config" :=
                  JsonFile (JObj [("api_key", JStr "file-key");
                                  ("cloudinary_cloud_name", JStr "file-cloud")]) ]} in
  dict_lookup (load_config w) "api_key" = Some (JStr "env-key")
  /\ dict_lookup (load_config w) "cloudinary_cloud_name" = Some (JStr "file-cloud").
Proof.
  intros w. split.
  - destruct (load_config_env_priority w "ANTHROPIC_API_KEY" "api_key")
      as (Henv & _).
    + unfold env_mappings. apply elem_of_cons. by left.
    + apply Henv. discriminate.
  - destruct (load_config_env_priority w "CLOUDINARY_CLOUD_NAME"
                "cloudinary_cloud_name") as (_ & _ & _ & Hfile).
    + unfold env_mappings. apply elem_of_cons. right. apply elem_of_cons. by left.
    + apply (Hfile [("api_key", JStr "file-key");
                    ("cloudinary_cloud_name", JStr "file-cloud")]);
        try reflexivity.
      apply (bool_decide_unpack _). by vm_compute.
Defined.

(** C7 as stated fails at an environment variable that is set to the empty
    string: the variable is set, yet the value of the config file is what
    [load_config] returns. *)
Lemma load_config_empty_env_var :
  let w := sample_world {[ "ANTHROPIC_API_KEY" := "" ]}
             {[ "/home/user/.trading_journal_web_config" :=
                  JsonFile (JObj [("api_key", JStr "file-key")]) ]} in
  environ w !! "ANTHROPIC_API_KEY" = Some ""
  /\ IS_CLOUD w = false
  /\ dict_lookup (load_config w) "api_key" = Some (JStr "file-key")
  /\ dict_lookup (load_config w) "api_key" <> Some (JStr "").
Proof. intros w. repeat split; try reflexivity. vm_compute. discriminate. Qed.

(** ** Saving entries in cloud mode *)

Section AssocSet.
Context {V : Type}.
Implicit Types (d : list (string * V)) (k : string) (v : V).

Lemma assoc_set_set d k v1 v2 :
  assoc_set (assoc_set d k v1) k v2 = assoc_set d k v2.
Proof.
  induction d as [|[k0 v0] d IH]; simpl.
  - by rewrite String.eqb_refl.
  - destruct (String.eqb k0 k) eqn:E; simpl; rewrite E; [done|by rewrite IH].
Qed.

Lemma assoc_set_same d k v : assoc_lookup d k = Some v -> assoc_set d k v = d.
Proof.
  induction d as [|[k0 v0] d IH]; simpl; [done|].
  destruct (String.eqb k0 k); [by intros [= ->]|].
  intros H. by rewrite IH.
Qed.
End AssocSet.

Lemma same_setting_refl w : same_setting w w.
Proof. by repeat split. Qed.

Lemma same_setting_trans w1 w2 w3 :
  same_setting w1 w2 -> same_setting w2 w3 -> same_setting w1 w3.
Proof.
  unfold same_setting. intros H1 H2.
  destruct H1 as (?&?&?&?&?&?&?&?&?), H2 as (?&?&?&?&?&?&?&?&?).
  repeat split; congruence.
Qed.

Lemma same_setting_path w w' u :
  same_setting w w' -> get_user_journal_path w' u = get_user_journal_path w u.
Proof.
  intros (?&?&Ha&?&?&?&Hs&?&?).
  unfold get_user_journal_path, get_current_user. by rewrite Ha, Hs.
Qed.


(** One turn of the cloud loop on a journal that can be read back. *)
Lemma save_one_cloud_entry (w : world) (j d : dict) (e rest : list json) :
  read_fault w !! get_user_journal_path w None = None ->
  load_cloud_journal w None = JObj j ->
  dict_lookup j "entries" = Some (JList e) ->
  let new := normalized_entry d (est_timestamp_at (ext w) (clock_reads w))
                                (utc_isoformat_at (ext w) (S (clock_reads w))) in
  let w1 := set_clock_reads w (S (S (clock_reads w))) in
  let j1 := dict_set j "entries" (JList (e ++ [new])) in
  let w2 := set_fs w1 (<[get_user_journal_path w None := JsonFile (JObj j1)]> (fs w1)) in
  save_cloud_entries (JObj d :: rest) w =
    match write_fault w !! get_user_journal_path w None with
    | Some (AtOpen, _) =>
        (Ret (Some (error_response "Failed to save entry" 500)), w1)
    | Some (AfterOpen, _) =>
        (Ret (Some (error_response "Failed to save entry" 500)),
         set_fs w1 (<[get_user_journal_path w None := OtherFile]> (fs w1)))
    | None => save_cloud_entries rest w2
    end
  /\ same_setting w w2
  /\ clock_reads w2 = S (S (clock_reads w))
  /\ load_cloud_journal w2 None = JObj j1
  /\ dict_lookup j1 "entries" = Some (JList (e ++ [new])).
Proof.
  intros Hr Hl He new w1 j1 w2. split; [|split; [|split; [|split]]].
  - simpl. unfold bind at 1. unfold bind at 1. unfold bind at 1.
    unfold get_est_timestamp, read_clock, ret. simpl.
    unfold add_cloud_entry, bind, get_world, lift.
    change (set_clock_reads (set_clock_reads w (S (clock_reads w)))
              (S (S (clock_reads w)))) with w1.
    change (JObj _) with new.
    change (load_cloud_journal w1 None) with (load_cloud_journal w None).
    rewrite Hl. unfold append_to_entries. simpl. rewrite He. fold j1.
    rewrite save_cloud_journal_run.
    change (write_fault w1) with (write_fault w).
    change (get_user_journal_path w1 None) with (get_user_journal_path w None).
    by destruct (write_fault w !! get_user_journal_path w None) as [[[] ?]|].
  - by repeat split.
  - reflexivity.
  - apply (load_after_write w1 None). exact Hr.
  - apply assoc_lookup_set_eq.
Qed.

Lemma normalized_entries_cons (x : externals) (c0 : nat) (d : dict)
    (ds : list dict) :
  normalized_entries x c0 (d :: ds)
  = normalized_entry d (est_timestamp_at x c0) (utc_isoformat_at x (S c0))
    :: normalized_entries x (S (S c0)) ds.
Proof.
  unfold normalized_entries. rewrite imap_cons. f_equal.
  - by rewrite Nat.mul_0_r, Nat.add_0_r.
  - apply imap_ext. intros k d' _. unfold compose.
    replace (c0 + 2 * S k)%nat with (S (S c0) + 2 * k)%nat by lia. done.
Qed.

Lemma length_normalized_entries x c0 ds :
  length (normalized_entries x c0 ds) = length ds.
Proof. unfold normalized_entries. apply length_imap. Qed.

(** The cloud loop that runs to its end has appended the normalized entries,
    in request order, to the entries that were stored. *)
Lemma save_cloud_entries_spec (r : list json) :
  forall (w w' : world) (j : dict) (e : list json),
    read_fault w !! get_user_journal_path w None = None ->
    load_cloud_journal w None = JObj j ->
    dict_lookup j "entries" = Some (JList e) ->
    save_cloud_entries r w = (Ret None, w') ->
    exists ds : list dict,
      r = JObj <$> ds
      /\ same_setting w w'
      /\ load_cloud_journal w' None
         = JObj (dict_set j "entries"
                   (JList (e ++ normalized_entries (ext w) (clock_reads w) ds))).
Proof.
  induction r as [|x rest IH]; intros w w' j e Hr Hl He Hrun.
  - injection Hrun as <-. exists []. split; [done|].
    split; [apply same_setting_refl|].
    unfold normalized_entries. simpl. rewrite app_nil_r.
    by rewrite assoc_set_same.
  - destruct x as [| | | | | |d];
      try (simpl in Hrun; unfold bind, raise in Hrun; discriminate).
    destruct (save_one_cloud_entry w j d e rest Hr Hl He)
      as (Hstep & Hsame & Hclock & Hl2 & He2).
    rewrite Hstep in Hrun.
    destruct (write_fault w !! get_user_journal_path w None) as [[[] ?]|];
      [discriminate|discriminate|].
    eapply IH in Hrun as (ds & -> & Hsame' & Hl');
      [|exact Hr|exact Hl2|exact He2].
    exists (d :: ds). split; [done|].
    split; [by eapply same_setting_trans|].
    rewrite Hl'. rewrite assoc_set_set, Hclock.
    rewrite normalized_entries_cons. by rewrite <- app_assoc.
Qed.

(** On request entries that are dicts and a journal file that can be
    written, the cloud loop runs to its end. *)
Lemma save_cloud_entries_succeeds (ds : list dict) :
  forall (w : world) (j : dict) (e : list json),
    read_fault w !! get_user_journal_path w None = None ->
    write_fault w !! get_user_journal_path w None = None ->
    load_cloud_journal w None = JObj j ->
    dict_lookup j "entries" = Some (JList e) ->
    exists w', save_cloud_entries (JObj <$> ds) w = (Ret None, w').
Proof.
  induction ds as [|d ds IH]; intros w j e Hr Hw Hl He.
  - by exists w.
  - destruct (save_one_cloud_entry w j d e (JObj <$> ds) Hr Hl He)
      as (Hstep & Hsame & Hclock & Hl2 & He2).
    rewrite fmap_cons, Hstep, Hw.
    eapply IH; try done.
Qed.

(** The only early return of the cloud loop is the failed save. *)
Lemma save_cloud_entries_early (r : list json) :
  forall (w w' : world) (resp : response),
    save_cloud_entries r w = (Ret (Some resp), w') ->
    resp = error_response "Failed to save entry" 500.
Proof.
  induction r as [|x rest IH]; intros w w' resp Hrun; [discriminate|].
  simpl in Hrun. unfold bind at 1 in Hrun.
  destruct (make_cloud_entry x w) as [[ce|ex] w1]; [|discriminate].
  unfold bind at 1 in Hrun.
  destruct (add_cloud_entry ce None w1) as [[[|]|ex] w2]; simpl in Hrun.
  - by eapply IH.
  - unfold ret in Hrun. by injection Hrun as <- _.
  - discriminate.
Qed.

(** A save-journal that answers with success in cloud mode ran the loop to
    its end. *)
Lemma save_journal_success (w : world) (rq : request) (d j : dict)
    (e r : list json) :
  IS_CLOUD w = true ->
  req_json rq = Ret (JObj d) ->
  dict_lookup d "entries" = Some (JList r) ->
  r <> [] ->
  load_cloud_journal w None = JObj j ->
  dict_lookup j "entries" = Some (JList e) ->
  read_fault w !! get_user_journal_path w None = None ->
  status (api_save_journal rq w).1 = 200 ->
  exists ds : list dict,
    r = JObj <$> ds
    /\ same_setting w (api_save_journal rq w).2
    /\ load_cloud_journal (api_save_journal rq w).2 None
       = JObj (dict_set j "entries"
                 (JList (e ++ normalized_entries (ext w) (clock_reads w) ds)))
    /\ (api_save_journal rq w).1
       = jsonify (JObj [("success", JBool true);
                        ("count", JInt (Z.of_nat (length r)));
                        ("mode", JStr "cloud")]).
Proof.
  intros Hcloud Hreq Hent Hne Hl He Hr Hok.
  assert (Ht : truthy (JList r) = true) by (by destruct r).
  assert (Hrun : api_save_journal rq w =
    match save_cloud_entries r w with
    | (Ret (Some resp), w1) => (resp, w1)
    | (Ret None, w1) =>
        (jsonify (JObj [("success", JBool true);
                        ("count", JInt (Z.of_nat (length r)));
                        ("mode", JStr "cloud")]), w1)
    | (Raise x, w1) => (on_permission_error "File is open in another program" x, w1)
    end).
  { unfold api_save_journal, run_handler, bind, lift, get_world, ret.
    rewrite Hreq. simpl. unfold dict_get. rewrite Hent.
    unfold default, id. rewrite Ht. cbv beta iota delta [negb]. rewrite Hcloud.
    unfold py_iter, py_len.
    by destruct (save_cloud_entries r w) as [[[resp|]|x] w1]. }
  rewrite Hrun in *.
  destruct (save_cloud_entries r w) as [[[resp|]|x] w1] eqn:E.
  - apply save_cloud_entries_early in E as ->. discriminate.
  - destruct (save_cloud_entries_spec r w w1 j e Hr Hl He E)
      as (ds & -> & Hsame & Hl').
    exists ds. done.
  - simpl in Hok. unfold on_permission_error, on_exception in Hok.
    destruct (exn_cls x); discriminate.
Qed.

(** C8: in cloud mode, for a stored journal with entries list [e] and a
    non-empty request list [r], a save-journal that answers with success
    leaves as stored entries [e] followed by the normalized entries of [r]
    in request order, every element of [e] where it was, and reports a
    count equal to the length of [r]. *)
Theorem save_journal_appends (w : world) (rq : request) (d j : dict)
    (e r : list json) :
  IS_CLOUD w = true ->
  req_json rq = Ret (JObj d) ->
  dict_lookup d "entries" = Some (JList r) ->
  r <> [] ->
  load_cloud_journal w None = JObj j ->
  dict_lookup j "entries" = Some (JList e) ->
  read_fault w !! get_user_journal_path w None = None ->
  status (api_save_journal rq w).1 = 200 ->
  let w' := (api_save_journal rq w).2 in
  exists ds : list dict,
    r = JObj <$> ds
    /\ let stored := e ++ normalized_entries (ext w) (clock_reads w) ds in
       load_cloud_journal w' None = JObj (dict_set j "entries" (JList stored))
       /\ dict_lookup (dict_set j "entries" (JList stored)) "entries"
          = Some (JList stored)
       /\ (forall (k : nat) (x : json), e !! k = Some x -> stored !! k = Some x)
       /\ length stored = (length e + length r)%nat
       /\ (api_save_journal rq w).1
          = jsonify (JObj [("success", JBool true);
                           ("count", JInt (Z.of_nat (length r)));
                           ("mode", JStr "cloud")]).
Proof.
  intros Hcloud Hreq Hent Hne Hl He Hr Hok w'.
  destruct (save_journal_success w rq d j e r) as (ds & -> & _ & Hl' & Hresp);
    try done.
  exists ds. split; [done|]. simpl. split; [done|].
  split; [apply assoc_lookup_set_eq|].
  split; [intros k x Hk; by apply lookup_app_l_Some|].
  split; [|done].
  by rewrite length_app, length_normalized_entries, length_fmap.
Qed.

(** The theorem at a journal of one entry and a request of two. *)
Lemma save_journal_appends_witness :
  let e := [JObj [("timestamp", JStr "t0"); ("content", JStr "a")]] in
  let r := [JObj [("content", JStr "n1")];
            JObj [("timestamp", JStr "t2"); ("content", JStr "n2")]] in
  let rq := post (JObj [("entries", JList r)]) in
  let w := sample_world cloud_env
             {[ "/app/journal_default.json" := JsonFile (JObj [("entries", JList e)]) ]} in
  status (api_save_journal rq w).1 = 200
  /\ load_cloud_journal (api_save_journal rq w).2 None
     = JObj [("entries",
              JList [JObj [("timestamp", JStr "t0"); ("content", JStr "a")];
                     JObj [("timestamp", JStr "Monday, January 05, 2026 09:30 AM EST");
                           ("sentiment", JObj []); ("content", JStr "n1");
                           ("saved_at", JStr "2026-01-05T14:30:00+00:00")];
                     JObj [("timestamp", JStr "t2");
                           ("sentiment", JObj []); ("content", JStr "n2");
                           ("saved_at", JStr "2026-01-05T14:30:00+00:00")]])].
Proof.
  intros e r rq w.
  destruct (save_journal_appends w rq [("entries", JList r)]
              [("entries", JList e)] e r)
    as (ds & Hds & Hstored & _); try reflexivity.
  - discriminate.
  - split; [reflexivity|].
    assert (ds = [[("content", JStr "n1")];
                  [("timestamp", JStr "t2"); ("content", JStr "n2")]]) as ->.
    { destruct ds as [|d1 [|d2 [|d3 ds]]]; try discriminate.
      by injection Hds as <- <-. }
    exact Hstored.
Defined.

(** ** Listing after an append *)

Lemma well_formed_summary (x : json) :
  well_formed_entry x = true -> exists s, entry_summary x = Ret s.
Proof.
  destruct x as [| | | | | |d]; try discriminate. simpl.
  intros [Hs Hc]%andb_prop. unfold dict_get.
  destruct (dict_lookup d "sentiment") as [[| | | | | |sd]|]; try discriminate;
    destruct (dict_lookup d "content") as [[|b|z|q|s|l|cd]|]; simpl in *;
    try destruct b; try destruct (z =? 0); try destruct (Qeq_bool q 0);
    try destruct (String.eqb s ""); try destruct l; try destruct cd;
    simpl in *; try discriminate; eauto.
Qed.



(** Listing well-formed entries gives one summary for each, in order. *)
Lemma collect_summaries (l : list json) :
  Forall (fun e => well_formed_entry e = true) l ->
  exists ss,
    collect (fun e => match entry_summary e with
                      | Ret j => Ret [j]
                      | Raise x => Raise x
                      end) l = Ret ss
    /\ Forall2 (fun e s => entry_summary e = Ret s) l ss.
Proof.
  induction 1 as [|x l Hx Hl (ss & Hc & Hss)].
  - exists []. by split; [|constructor].
  - destruct (well_formed_summary x Hx) as (s & Hs).
    exists (s :: ss). simpl. rewrite Hs, Hc. by split; [|constructor].
Qed.

(** list-entries in cloud mode on a journal whose entries all have a
    summary. *)
Lemma list_entries_cloud_run (w : world) (rq : request) (j : dict)
    (stored ss : list json) :
  IS_CLOUD w = true ->
  load_cloud_journal w None = JObj j ->
  dict_lookup j "entries" = Some (JList stored) ->
  stored <> [] ->
  collect (fun e => match entry_summary e with
                    | Ret s => Ret [s]
                    | Raise x => Raise x
                    end) stored = Ret ss ->
  api_list_entries rq w
  = (jsonify (JObj [("entries", JList (take 10 (reverse ss)))]), w).
Proof.
  intros Hcloud Hl He Hne Hc.
  unfold api_list_entries, run_handler, bind, lift, get_world, ret.
  rewrite Hcloud, Hl. simpl. rewrite He.
  destruct stored as [|x stored]; [done|].
  cbv beta iota delta [truthy negb py_iter]. by rewrite Hc.
Qed.



(** Outside the data model: an entry saved with a string for its sentiment
    makes list-entries answer 500. *)
Lemma list_entries_string_sentiment :
  let r := [JObj [("content", JStr "x"); ("sentiment", JStr "BULLISH")]] in
  let w := sample_world cloud_env ∅ in
  status (api_save_journal (post (JObj [("entries", JList r)])) w).1 = 200
  /\ (api_list_entries (post JNull)
        (api_save_journal (post (JObj [("entries", JList r)])) w).2).1
     = error_response "'str' object has no attribute 'get'" 500.
Proof. intros r w. split; reflexivity. Qed.

(** ** The prompt builder *)

Lemma string_app_assoc (a b c : string) : (a +:+ b) +:+ c = a +:+ b +:+ c.
Proof.
  induction a as [|x a IH]; [reflexivity|].
  change (String x ((a +:+ b) +:+ c) = String x (a +:+ b +:+ c)).
  by rewrite IH.
Qed.

(** A market fetch answers, and touches neither the externals nor the log
    of LLM calls. *)
Lemma get_market_data_run (w : world) :
  exists (o : option market_data) (w' : world),
    get_market_data w = (Ret o, w')
    /\ ext w' = ext w /\ llm_log w' = llm_log w
    /\ (yf_installed w = true -> is_Some o)
    /\ (yf_installed w = false -> o = None).
Proof.
  unfold get_market_data, bind, get_world, ret, read_clock.
  destruct (yf_installed w); simpl.
  - eexists _, _. split; [reflexivity|]. repeat split; eauto. discriminate.
  - exists None, w. repeat split; eauto. discriminate.
Qed.

(** The message is the timestamp line, the market block when one is asked
    for and there is a snapshot, and the raw text under its heading. *)
Lemma build_message_run (include_market : json) (timestamp raw : string)
    (w : world) :
  exists w' : world,
    build_message include_market timestamp (JStr raw) w
    = (Ret ("Date/Time: " +:+ timestamp +:+ PyStr.nl +:+ PyStr.nl
            +:+ (if truthy include_market then
                   match (get_market_data w).1 with
                   | Ret (Some md) =>
                       format_market_for_prompt (ext w) (Some md)
                       +:+ PyStr.nl +:+ PyStr.nl
                   | _ => ""
                   end
                 else "")
            +:+ "My trading thoughts:" +:+ PyStr.nl +:+ raw), w')
    /\ ext w' = ext w /\ llm_log w' = llm_log w.
Proof.
  unfold build_message, bind, get_world, ret.
  destruct (truthy include_market).
  - destruct (get_market_data_run w) as (o & w' & Hrun & Hext & Hlog & _).
    rewrite Hrun. unfold fst. exists w'. split; [|done].
    destruct o as [md|]; cbv beta iota; by rewrite !string_app_assoc.
  - exists w. cbv beta iota. by rewrite !string_app_assoc.
Qed.

(** C5: for a non-empty raw text, the one message that process-entry sends
    to the LLM (it sends one exactly when an API key is configured) is the
    formatted timestamp line, then the market block only when inclusion is
    asked for and a snapshot is there, then the raw text under 'My trading
    thoughts:'; it goes out with the fixed system prompt, and the 'content'
    of the answer is the text of the first block of the LLM's response, as
    it came. *)
Theorem process_entry_prompt (w : world) (rq : request) (d : dict)
    (raw : string) :
  req_json rq = Ret (JObj d) ->
  dict_lookup d "text" = Some (JStr raw) ->
  raw <> "" ->
  let include_market := truthy (dict_get d "include_market" (JBool true)) in
  let timestamp := est_timestamp_at (ext w) (clock_reads w) in
  let snapshot := (get_market_data (set_clock_reads w (S (clock_reads w)))).1 in
  let block :=
    if include_market then
      match snapshot with
      | Ret (Some md) =>
          format_market_for_prompt (ext w) (Some md) +:+ PyStr.nl +:+ PyStr.nl
      | _ => ""
      end
    else "" in
  let msg := "Date/Time: " +:+ timestamp +:+ PyStr.nl +:+ PyStr.nl +:+ block
             +:+ "My trading thoughts:" +:+ PyStr.nl +:+ raw in
  let call := {| llm_api_key := get_api_key w;
                 llm_model := "claude-sonnet-4-20250514";
                 llm_max_tokens := 2000;
                 llm_system := SYSTEM_PROMPT;
                 llm_messages := [("user", msg)] |} in
  let resp := (api_process_entry rq w).1 in
  let w' := (api_process_entry rq w).2 in
  llm_log w' = llm_log w ++ (if truthy (get_api_key w) then [call] else [])
  /\ (yf_installed w = true -> exists md, snapshot = Ret (Some md))
  /\ (yf_installed w = false -> snapshot = Ret None)
  /\ (forall (t : string) (more : list string),
        truthy (get_api_key w) = true ->
        llm_reply (ext w) (length (llm_log w)) call = Ret (t :: more) ->
        status resp = 200
        /\ exists sentiment,
            body resp = JObj [("timestamp", JStr timestamp);
                              ("sentiment", sentiment);
                              ("content", JStr t);
                              ("raw_text", JStr raw)]).
Proof.
  intros Hreq Htext Hne include_market timestamp snapshot block msg call resp w'.
  assert (Hraw : truthy (JStr raw) = true).
  { simpl. by destruct (String.eqb_spec raw ""). }
  set (w1 := set_clock_reads w (S (clock_reads w))) in *.
  destruct (build_message_run (dict_get d "include_market" (JBool true))
              timestamp raw w1) as (w2 & Hmsg & Hext2 & Hlog2).
  change (ext w1) with (ext w) in Hmsg, Hext2.
  change (llm_log w1) with (llm_log w) in Hlog2.
  fold snapshot include_market block msg in Hmsg.
  destruct (get_market_data_run w1) as (o & w1' & Hsnap & _ & _ & Hyes & Hno).
  assert (Hget : dict_get d "text" (JStr "") = JStr raw).
  { unfold dict_get. by rewrite Htext. }
  assert (Hrun : api_process_entry rq w =
    if truthy (get_api_key w) then
      match llm_reply (ext w) (length (llm_log w)) call with
      | Ret (t :: _) =>
          (jsonify (JObj [("timestamp", JStr timestamp);
                          ("sentiment",
                           match (get_market_data
                                    (set_llm_log w2 (llm_log w ++ [call]))).1 with
                           | Ret (Some md) => sentiment_json (md_sentiment md)
                           | _ => JObj []
                           end);
                          ("content", JStr t);
                          ("raw_text", JStr raw)]),
           (get_market_data (set_llm_log w2 (llm_log w ++ [call]))).2)
      | Ret [] => (on_exception (Exn IndexError "list index out of range"),
                   set_llm_log w2 (llm_log w ++ [call]))
      | Raise x => (on_exception x, set_llm_log w2 (llm_log w ++ [call]))
      end
    else (error_response "API key not configured" 400, w)).
  { unfold api_process_entry, run_handler, bind, lift, get_world, ret.
    rewrite Hreq. simpl. rewrite !Hget, Hraw. cbv beta iota delta [negb].
    destruct (truthy (get_api_key w)); [|done].
    unfold get_est_timestamp, read_clock. cbv beta iota.
    fold w1. fold timestamp.
    rewrite Hmsg. unfold llm_create. rewrite Hext2, Hlog2. fold call.
    destruct (llm_reply (ext w) (length (llm_log w)) call) as [[|t more]|x];
      try done.
    destruct (get_market_data_run (set_llm_log w2 (llm_log w ++ [call])))
      as (o3 & w3 & Hrun3 & _).
    rewrite Hrun3. simpl. by destruct o3. }
  subst resp w'. rewrite Hrun.
  split; [|split; [|split]].
  - destruct (truthy (get_api_key w)); [|by rewrite app_nil_r].
    destruct (llm_reply (ext w) (length (llm_log w)) call) as [[|t more]|x];
      try done.
    destruct (get_market_data_run (set_llm_log w2 (llm_log w ++ [call])))
      as (o3 & w3 & Hrun3 & _ & Hlog3 & _).
    rewrite Hrun3. simpl. by rewrite Hlog3.
  - intros Hy. subst snapshot. rewrite Hsnap. simpl.
    destruct (Hyes Hy) as [md ->]. eauto.
  - intros Hn. subst snapshot. rewrite Hsnap. simpl. by rewrite (Hno Hn).
  - intros t more Hkey Hreply. rewrite Hkey, Hreply. simpl. eauto.
Qed.

(** The theorem at a request that asks for no market block, in a world whose
    environment holds an API key. *)
Lemma process_entry_prompt_witness :
  let rq := post (JObj [("text", JStr "bought SPY"); ("include_market", JBool false)]) in
  let w := sample_world {[ "ANTHROPIC_API_KEY" := "sk-test" ]} ∅ in
  let msg := "Date/Time: Monday, January 05, 2026 09:30 AM EST" +:+ PyStr.nl
             +:+ PyStr.nl +:+ "My trading thoughts:" +:+ PyStr.nl +:+ "bought SPY" in
  llm_log (api_process_entry rq w).2
    = [{| llm_api_key := JStr "sk-test";
          llm_model := "claude-sonnet-4-20250514";
          llm_max_tokens := 2000;
          llm_system := SYSTEM_PROMPT;
          llm_messages := [("user", msg)] |}]
  /\ status (api_process_entry rq w).1 = 200
  /\ dict_lookup (match body (api_process_entry rq w).1 with
                  | JObj b => b
                  | _ => []
                  end) "content" = Some (JStr "Journal entry").
Proof.
  intros rq w msg.
  destruct (process_entry_prompt w rq
              [("text", JStr "bought SPY"); ("include_market", JBool false)]
              "bought SPY") as (Hlog & _ & _ & Hresp); try reflexivity.
  - discriminate.
  - split; [exact Hlog|].
    destruct (Hresp "Journal entry" []) as (Hstatus & sentiment & Hbody);
      try reflexivity.
    split; [exact Hstatus|]. by rewrite Hbody.
Defined.

(** ** Recognized error conditions *)





(** * Further properties of the code *)

(** ** Delete and update by index: bounds and failed writes *)

(** delete-entry in cloud mode, for an integer index over a journal whose
    'entries' is a list: the position is counted from the end when the index
    is negative. *)
Lemma delete_entry_run (w : world) (rq : request) (d j : dict)
    (e : list json) (i : Z) :
  IS_CLOUD w = true ->
  req_json rq = Ret (JObj d) ->
  dict_lookup d "index" = Some (JInt i) ->
  load_cloud_journal w None = JObj j ->
  dict_lookup j "entries" = Some (JList e) ->
  let n := Z.of_nat (length e) in
  let pos := if i <? 0 then n + i else i in
  api_delete_entry rq w =
    if (0 <=? pos) && (pos <? n) then
      match e !! Z.to_nat pos with
      | Some deleted =>
          let w' := (save_cloud_journal
                       (JObj (dict_set j "entries" (JList (delete (Z.to_nat pos) e))))
                       None w).2 in
          match py_get deleted "timestamp" (JStr "Unknown") with
          | Ret t => (jsonify (JObj [("success", JBool true); ("deleted", t)]), w')
          | Raise x => (on_exception x, w')
          end
      | None => (on_exception (Exn IndexError "pop index out of range"), w)
      end
    else (error_response "Entry not found" 404, w).
Proof.
  intros Hcloud Hreq Hidx Hload Hent n pos. subst pos.
  unfold api_delete_entry, run_handler, bind, lift, get_world, ret.
  rewrite Hreq. simpl. unfold dict_get. rewrite Hidx. simpl.
  rewrite Hcloud, Hload. simpl. unfold dict_get. rewrite Hent. simpl.
  fold n. destruct (i <? 0) eqn:Hneg; simpl.
  - destruct (0 <=? n + i); simpl; [|done].
    destruct (n + i <? n); simpl; [|done].
    destruct (e !! Z.to_nat (n + i)) as [deleted|]; simpl; [|done].
    destruct (save_cloud_journal _ None w) as [[b|x] w2] eqn:Es; simpl.
    + by destruct (py_get deleted "timestamp" (JStr "Unknown")).
    + rewrite save_cloud_journal_run in Es.
      destruct (write_fault w !! _) as [[[] ?]|]; discriminate.
  - destruct (0 <=? i); simpl; [|done].
    destruct (i <? n); simpl; [|done].
    destruct (e !! Z.to_nat i) as [deleted|]; simpl; [|done].
    destruct (save_cloud_journal _ None w) as [[b|x] w2] eqn:Es; simpl.
    + by destruct (py_get deleted "timestamp" (JStr "Unknown")).
    + rewrite save_cloud_journal_run in Es.
      destruct (write_fault w !! _) as [[[] ?]|]; discriminate.
Qed.

(** X1: in cloud mode a negative index counts from the end, as in Python:
    delete-entry with index [-k], [1 <= k <= length e], removes the entry at
    position [length e - k] and reports its timestamp; with the journal
    file writable, the journal loaded afterwards holds the other entries in
    their order. *)
Theorem delete_entry_negative_index (w : world) (rq : request) (d j ent : dict)
    (e : list json) (k : nat) :
  IS_CLOUD w = true ->
  req_json rq = Ret (JObj d) ->
  dict_lookup d "index" = Some (JInt (- Z.of_nat k)) ->
  load_cloud_journal w None = JObj j ->
  dict_lookup j "entries" = Some (JList e) ->
  (1 <= k <= length e)%nat ->
  e !! (length e - k)%nat = Some (JObj ent) ->
  (api_delete_entry rq w).1
  = jsonify (JObj [("success", JBool true);
                   ("deleted", dict_get ent "timestamp" (JStr "Unknown"))])
  /\ (write_fault w !! get_user_journal_path w None = None ->
      load_cloud_journal (api_delete_entry rq w).2 None
      = JObj (dict_set j "entries" (JList (delete (length e - k)%nat e)))).
Proof.
  intros Hcloud Hreq Hidx Hload Hent Hk Hith.
  assert (Hne : e <> []) by (destruct e; simpl in *; [lia|done]).
  pose proof (loaded_entries_readable _ _ _ _ Hload Hent Hne) as Hread.
  rewrite (delete_entry_run w rq d j e _ Hcloud Hreq Hidx Hload Hent).
  replace (- Z.of_nat k <? 0) with true by lia.
  replace (Z.to_nat (Z.of_nat (length e) + - Z.of_nat k))
    with (length e - k)%nat by lia.
  replace ((0 <=? Z.of_nat (length e) + - Z.of_nat k)
           && (Z.of_nat (length e) + - Z.of_nat k <? Z.of_nat (length e)))
    with true by lia.
  rewrite Hith. simpl. split; [done|].
  intros Hw. rewrite save_cloud_journal_run, Hw. simpl.
  by apply load_after_write.
Qed.

(** The theorem at a journal of three entries and index -1. *)
Lemma delete_entry_negative_index_witness :
  let e := [JObj [("timestamp", JStr "t0")]; JObj [("timestamp", JStr "t1")];
            JObj [("timestamp", JStr "t2")]] in
  let w := sample_world cloud_env
             {[ "/app/journal_default.json" := JsonFile (JObj [("entries", JList e)]) ]} in
  let rq := post (JObj [("index", JInt (-1))]) in
  (api_delete_entry rq w).1
  = jsonify (JObj [("success", JBool true); ("deleted", JStr "t2")])
  /\ load_cloud_journal (api_delete_entry rq w).2 None
     = JObj [("entries", JList [JObj [("timestamp", JStr "t0")];
                                JObj [("timestamp", JStr "t1")]])].
Proof.
  intros e w rq.
  destruct (delete_entry_negative_index w rq [("index", JInt (-1))]
              [("entries", JList e)] [("timestamp", JStr "t2")] e 1)
    as (Hresp & Hstore); try reflexivity.
  - simpl. lia.
  - split; [exact Hresp|]. apply Hstore. reflexivity.
Defined.

(** X2: in cloud mode delete-entry with an integer index outside
    [-length e, length e) answers 404 'Entry not found' and leaves the world
    as it was. *)
Theorem delete_entry_out_of_range (w : world) (rq : request) (d j : dict)
    (e : list json) (i : Z) :
  IS_CLOUD w = true ->
  req_json rq = Ret (JObj d) ->
  dict_lookup d "index" = Some (JInt i) ->
  load_cloud_journal w None = JObj j ->
  dict_lookup j "entries" = Some (JList e) ->
  i < - Z.of_nat (length e) \/ Z.of_nat (length e) <= i ->
  api_delete_entry rq w = (error_response "Entry not found" 404, w).
Proof.
  intros Hcloud Hreq Hidx Hload Hent Hout.
  rewrite (delete_entry_run w rq d j e _ Hcloud Hreq Hidx Hload Hent).
  destruct (i <? 0) eqn:Hneg.
  - replace ((0 <=? Z.of_nat (length e) + i)
             && (Z.of_nat (length e) + i <? Z.of_nat (length e)))
      with false; [done|].
    symmetry. apply andb_false_iff. left. lia.
  - replace ((0 <=? i) && (i <? Z.of_nat (length e))) with false; [done|].
    symmetry. apply andb_false_iff. right. lia.
Qed.

Lemma delete_entry_out_of_range_witness :
  let e := [JObj [("timestamp", JStr "t0")]] in
  let w := sample_world cloud_env
             {[ "/app/journal_default.json" := JsonFile (JObj [("entries", JList e)]) ]} in
  api_delete_entry (post (JObj [("index", JInt 1)])) w
  = (error_response "Entry not found" 404, w)
  /\ api_delete_entry (post (JObj [("index", JInt (-2))])) w
     = (error_response "Entry not found" 404, w).
Proof.
  intros e w. split.
  - apply (delete_entry_out_of_range w _ [("index", JInt 1)]
             [("entries", JList e)] e 1); try reflexivity. simpl. lia.
  - apply (delete_entry_out_of_range w _ [("index", JInt (-2))]
             [("entries", JList e)] e (-2)); try reflexivity. simpl. lia.
Defined.

(** X3: update-entry has no counting from the end: in cloud mode, for a
    non-empty content and an integer index that is negative or not below
    [length e], it answers 404 'Entry not found' and leaves the world as it
    was. *)
Theorem update_entry_out_of_range (w : world) (rq : request) (d j : dict)
    (e : list json) (i : Z) (c : json) :
  IS_CLOUD w = true ->
  req_json rq = Ret (JObj d) ->
  dict_lookup d "index" = Some (JInt i) ->
  dict_lookup d "content" = Some c ->
  truthy c = true ->
  load_cloud_journal w None = JObj j ->
  dict_lookup j "entries" = Some (JList e) ->
  i < 0 \/ Z.of_nat (length e) <= i ->
  api_update_entry rq w = (error_response "Entry not found" 404, w).
Proof.
  intros Hcloud Hreq Hidx Hc Ht Hload Hent Hout.
  unfold api_update_entry, run_handler, bind, lift, get_world, ret.
  rewrite Hreq. simpl. unfold dict_get. rewrite Hidx, Hc. simpl.
  rewrite Ht. simpl. rewrite Hcloud, Hload. simpl.
  unfold dict_get. rewrite Hent. simpl.
  destruct (0 <=? i) eqn:H0; simpl; [|done].
  replace (i <? Z.of_nat (length e)) with false by lia. done.
Qed.

Lemma update_entry_out_of_range_witness :
  let e := [JObj [("timestamp", JStr "t0"); ("content", JStr "a")]] in
  let w := sample_world cloud_env
             {[ "/app/journal_default.json" := JsonFile (JObj [("entries", JList e)]) ]} in
  api_update_entry (post (JObj [("index", JInt (-1)); ("content", JStr "b")])) w
  = (error_response "Entry not found" 404, w).
Proof.
  intros e w.
  apply (update_entry_out_of_range w _ [("index", JInt (-1)); ("content", JStr "b")]
           [("entries", JList e)] e (-1) (JStr "b")); try reflexivity.
  left. lia.
Defined.




(** ** Clearing the journal *)

(** X5: clear-journal in cloud mode answers success; with the journal file
    writable and readable, the journal loaded afterwards has no entries and
    list-entries answers with the empty list and 'No journal entries found'.
    In local mode it answers 400 and changes nothing. *)
Theorem clear_journal_empties (w : world) (rq rq' : request) :
  (IS_CLOUD w = true ->
   (api_clear_journal rq w).1
   = jsonify (JObj [("success", JBool true); ("message", JStr "Journal cleared")])
   /\ (write_fault w !! get_user_journal_path w None = None ->
       read_fault w !! get_user_journal_path w None = None ->
       load_cloud_journal (api_clear_journal rq w).2 None
       = JObj [("entries", JList [])]
       /\ (api_list_entries rq' (api_clear_journal rq w).2).1
          = jsonify (JObj [("entries", JList []);
                           ("message", JStr "No journal entries found")])))
  /\ (IS_CLOUD w = false ->
      status (api_clear_journal rq w).1 = 400 /\ (api_clear_journal rq w).2 = w).
Proof.
  split.
  - intros Hcloud.
    assert (Hrun : api_clear_journal rq w =
      (jsonify (JObj [("success", JBool true); ("message", JStr "Journal cleared")]),
       (save_cloud_journal (JObj [("entries", JList [])]) None w).2)).
    { unfold api_clear_journal, run_handler, bind, get_world, ret.
      rewrite Hcloud.
      destruct (save_cloud_journal _ None w) as [[b|x] w2] eqn:Es; [done|].
      rewrite save_cloud_journal_run in Es.
      destruct (write_fault w !! _) as [[[] ?]|]; discriminate. }
    rewrite Hrun. simpl. split; [done|].
    intros Hw Hr. rewrite save_cloud_journal_run, Hw. simpl.
    assert (Hl : load_cloud_journal
                   (set_fs w (<[get_user_journal_path w None :=
                                  JsonFile (JObj [("entries", JList [])])]> (fs w)))
                   None = JObj [("entries", JList [])])
      by (by apply load_after_write).
    split; [exact Hl|].
    unfold api_list_entries, run_handler, bind, lift, get_world, ret.
    change (IS_CLOUD (set_fs w _)) with (IS_CLOUD w).
    rewrite Hcloud, Hl. done.
  - intros Hlocal.
    unfold api_clear_journal, run_handler, bind, get_world, ret.
    by rewrite Hlocal.
Qed.

Lemma clear_journal_empties_witness :
  let e := [JObj [("timestamp", JStr "t0"); ("content", JStr "a")]] in
  let w := sample_world cloud_env
             {[ "/app/journal_default.json" := JsonFile (JObj [("entries", JList e)]) ]} in
  load_cloud_journal (api_clear_journal (post JNull) w).2 None
  = JObj [("entries", JList [])]
  /\ status (api_clear_journal (post JNull) (sample_world ∅ ∅)).1 = 400.
Proof.
  intros e w.
  destruct (clear_journal_empties w (post JNull) (post JNull)) as (Hc & _).
  destruct (clear_journal_empties (sample_world ∅ ∅) (post JNull) (post JNull))
    as (_ & Hl).
  split.
  - destruct Hc as (_ & Hc); [reflexivity|].
    destruct Hc as (Hc & _); [reflexivity|reflexivity|exact Hc].
  - destruct Hl as (Hl & _); [reflexivity|exact Hl].
Defined.

(** ** The order of the listing *)

(** X6: list-entries in cloud mode shows the journal backwards: over a
    non-empty journal of well-formed entries it returns [min 10 n] items, and
    the item at position [k] is the summary of the stored entry at index
    [n - 1 - k]; the world is left as it was.  So a position of the listing
    is not the index that delete-entry and update-entry take. *)
Theorem list_entries_reversed (w : world) (rq : request) (j : dict)
    (stored : list json) :
  IS_CLOUD w = true ->
  load_cloud_journal w None = JObj j ->
  dict_lookup j "entries" = Some (JList stored) ->
  stored <> [] ->
  Forall (fun x => well_formed_entry x = true) stored ->
  exists listing : list json,
    api_list_entries rq w = (jsonify (JObj [("entries", JList listing)]), w)
    /\ length listing = min 10 (length stored)
    /\ forall k : nat,
        (k < length listing)%nat ->
        exists x s, stored !! (length stored - 1 - k)%nat = Some x
                    /\ entry_summary x = Ret s
                    /\ listing !! k = Some s.
Proof.
  intros Hcloud Hl He Hne Hwf.
  destruct (collect_summaries stored Hwf) as (ss & Hc & Hss).
  pose proof (Forall2_length _ _ _ Hss) as Hlen.
  exists (take 10 (reverse ss)).
  split; [by eapply list_entries_cloud_run|].
  split; [by rewrite length_take, length_reverse, Hlen|].
  intros k Hk. rewrite length_take, length_reverse in Hk.
  assert (Hlt : (length stored - 1 - k < length stored)%nat) by lia.
  destruct (lookup_lt_is_Some_2 _ _ Hlt) as [x Hx].
  destruct (Forall2_lookup_l _ _ _ _ _ Hss Hx) as (s & Hs & Hsum).
  exists x, s. split; [done|]. split; [done|].
  rewrite lookup_take_lt by lia. rewrite reverse_lookup by lia.
  rewrite <- Hs. f_equal. lia.
Qed.

Lemma list_entries_reversed_witness :
  let stored := [JObj [("timestamp", JStr "t0"); ("content", JStr "a")];
                 JObj [("timestamp", JStr "t1"); ("content", JStr "b")]] in
  let w := sample_world cloud_env
             {[ "/app/journal_default.json" := JsonFile (JObj [("entries", JList stored)]) ]} in
  exists listing,
    api_list_entries (post JNull) w
    = (jsonify (JObj [("entries", JList listing)]), w)
    /\ length listing = 2%nat.
Proof.
  intros stored w.
  destruct (list_entries_reversed w (post JNull) [("entries", JList stored)] stored)
    as (listing & Hrun & Hlen & _); try reflexivity.
  - discriminate.
  - repeat constructor.
  - exists listing. split; [exact Hrun|exact Hlen].
Defined.
